(** * Load balancing calculator: a shallow embedding of [load_balancer.py]

    The Python module sums per-zone electrical loads, flags zones above a
    fixed threshold, computes a rounded per-zone target and recommends
    adjustments.  Zone loads are Python floats, so the embedding works on
    IEEE-754 binary64 values ([spec_float] with 53 bits of precision),
    together with the two pieces of the Python runtime the module relies
    on: [round(x, ndigits)] and the shortest-digits [repr] used by
    f-strings.  Exceptions are modelled by an error monad.  The builtin
    [sum] has two behaviours on floats, depending on the interpreter;
    the functions that lead to it take the summation as an argument and
    the properties are stated for both. *)

From Stdlib Require Import ZArith List String Ascii Bool Lia DecimalString.
From Stdlib Require Import Floats.SpecFloat.
From stdpp Require Import base list strings gmap.

Open Scope Z_scope.

(** ** Python floats *)

Module PyFloat.

Definition float : Type := spec_float.
Definition prec : Z := 53.
Definition emax : Z := 1024.

Definition add : float -> float -> float := SFadd prec emax.
Definition sub : float -> float -> float := SFsub prec emax.
Definition div : float -> float -> float := SFdiv prec emax.
Definition ltb : float -> float -> bool := SFltb.
Definition leb : float -> float -> bool := SFleb.
Definition abs : float -> float := SFabs.
Definition opp : float -> float := SFopp.

(** [float(n)] for a Python int: the nearest double, ties to even. *)
Definition of_Z (z : Z) : float := binary_normalize prec emax z 0 false.

Definition zero : float := S754_zero false.
Definition one : float := of_Z 1.

(** The double nearest to [digits * 10 ^ exp10], carrying the sign [neg];
    this is what reading a decimal numeral produces. *)
Definition strtod (neg : bool) (digits : Z) (exp10 : Z) : float :=
  match digits with
  | Zpos d =>
      if 0 <=? exp10
      then binary_normalize prec emax
             (if neg then - (digits * 10 ^ exp10) else digits * 10 ^ exp10) 0 neg
      else div (S754_finite neg d 0)
               (S754_finite false (Z.to_pos (10 ^ (- exp10))) 0)
  | _ => S754_zero neg
  end.

(** A float literal of the source text, e.g. [83.75] is [literal 8375 (-2)]. *)
Definition literal (digits : Z) (exp10 : Z) : float :=
  strtod (digits <? 0) (Z.abs digits) exp10.

(** Nearest integer to [a / b] for [b > 0], ties to the even neighbour. *)
Definition round_half_even_div (a b : Z) : Z :=
  let q := a / b in
  let r := a mod b in
  match 2 * r ?= b with
  | Lt => q
  | Gt => q + 1
  | Eq => if Z.even q then q else q + 1
  end.

(** [round(x, ndigits)] with [0 <= ndigits]: the exact binary value is
    rounded half-to-even to [ndigits] decimals and the decimal result is
    read back as a double.  Zeros, infinities and NaN round to
    themselves; the sign survives a result of zero. *)
Definition round (x : float) (ndigits : Z) : float :=
  match x with
  | S754_finite s m e =>
      let scaled := Zpos m * 10 ^ ndigits in
      let n := if 0 <=? e then scaled * 2 ^ e
               else round_half_even_div scaled (2 ^ (- e)) in
      strtod s n (- ndigits)
  | _ => x
  end.

(** *** [repr]: the shortest decimal string that reads back as the float *)

Definition pow10_scale (num den k : Z) : Z * Z :=
  if 0 <=? k then (num * 10 ^ k, den) else (num, den * 10 ^ (- k)).

Fixpoint decpt_up (fuel : nat) (num den p : Z) : Z :=
  match fuel with
  | O => p
  | S fuel' =>
      if den * 10 ^ p <=? num then decpt_up fuel' num den (p + 1) else p
  end.

Definition rational_of (m : positive) (e : Z) : Z * Z :=
  if 0 <=? e then (Zpos m * 2 ^ e, 1) else (Zpos m, 2 ^ (- e)).

(** The [p] with [10 ^ (p - 1) <= m * 2 ^ e < 10 ^ p], found upwards from
    an under-estimate obtained from the bit length. *)
Definition decimal_exponent (m : positive) (e : Z) : Z :=
  let bits := Zpos (digits2_pos m) + e in
  let est := (bits - 1) * 30103 / 100000 - 8 in
  let '(num, den) := rational_of m e in
  let '(num', den') := pow10_scale num den (- est) in
  decpt_up 24 num' den' 0 + est.

Definition same_float (x y : float) : bool :=
  match x, y with
  | S754_finite s1 m1 e1, S754_finite s2 m2 e2 =>
      Bool.eqb s1 s2 && Pos.eqb m1 m2 && Z.eqb e1 e2
  | _, _ => false
  end.

(** Tries [k], [k + 1], ... significant digits: the two [k]-digit decimals
    around [num / den] are read back, and the one nearest to the float
    among those that give the float back is kept. *)
Fixpoint shortest_from (fuel : nat) (x : float) (num den p k : Z) : Z * Z :=
  let '(tn, td) := pow10_scale num den (k - p) in
  let lo := tn / td in
  let r := tn mod td in
  let lo_ok := same_float (strtod false lo (p - k)) x in
  let hi_ok := negb (r =? 0) && same_float (strtod false (lo + 1) (p - k)) x in
  let pick :=
    match lo_ok, hi_ok with
    | true, false => Some lo
    | false, true => Some (lo + 1)
    | true, true =>
        match 2 * r ?= td with
        | Lt => Some lo
        | Gt => Some (lo + 1)
        | Eq => Some (if Z.even lo then lo else lo + 1)
        end
    | false, false => None
    end in
  match pick with
  | Some c => (c, p - k)
  | None =>
      match fuel with
      | O => (lo, p - k)
      | S fuel' => shortest_from fuel' x num den p (k + 1)
      end
  end.

Fixpoint strip_zeros (fuel : nat) (c q : Z) : Z * Z :=
  match fuel with
  | O => (c, q)
  | S fuel' =>
      if (c mod 10 =? 0) && negb (c =? 0)
      then strip_zeros fuel' (c / 10) (q + 1)
      else (c, q)
  end.

Definition digits_of (n : Z) : string :=
  NilZero.string_of_uint (N.to_uint (Z.to_N n)).

(** Digit string [d1 d2 ... dn] and decimal point position [decpt]:
    the float is [0.d1 d2 ... dn * 10 ^ decpt]. *)
Definition shortest_digits (m : positive) (e : Z) : string * Z :=
  let x := binary_normalize prec emax (Zpos m) e false in
  let '(num, den) := rational_of m e in
  let p := decimal_exponent m e in
  let '(c, q) := shortest_from 16 x num den p 1 in
  let '(c', q') := strip_zeros 20 c q in
  let ds := digits_of c' in
  (ds, Z.of_nat (String.length ds) + q').

Definition zeros (n : Z) : string :=
  string_of_list_ascii (repeat "0"%char (Z.to_nat n)).

Definition format_exponent (ex : Z) : string :=
  String.append (if ex <? 0 then "-" else "+")
    (String.append (if Z.abs ex <? 10 then "0" else "") (digits_of (Z.abs ex))).

(** Scientific notation is used when [decpt <= -4] or [decpt > 16];
    otherwise positional notation, with [.0] appended to integers. *)
Definition format_digits (ds : string) (decpt : Z) : string :=
  let n := Z.of_nat (String.length ds) in
  if (decpt <=? -4) || (16 <? decpt)
  then String.append (String.substring 0 1 ds)
         (String.append
            (if 1 <? n
             then String.append "." (String.substring 1 (Z.to_nat (n - 1)) ds)
             else "")
            (String.append "e" (format_exponent (decpt - 1))))
  else if decpt <=? 0
  then String.append "0." (String.append (zeros (- decpt)) ds)
  else if n <=? decpt
  then String.append ds (String.append (zeros (decpt - n)) ".0")
  else String.append (String.substring 0 (Z.to_nat decpt) ds)
         (String.append "."
            (String.substring (Z.to_nat decpt) (Z.to_nat (n - decpt)) ds)).

Definition repr (x : float) : string :=
  match x with
  | S754_nan => "nan"
  | S754_infinity s => if s then "-inf" else "inf"
  | S754_zero s => if s then "-0.0" else "0.0"
  | S754_finite s m e =>
      let '(ds, decpt) := shortest_digits m e in
      String.append (if s then "-" else "") (format_digits ds decpt)
  end.

End PyFloat.

(** ** Exceptions *)

Inductive exn : Type :=
  | ValueError (msg : string)
  | ZeroDivisionError.

Inductive result (A : Type) : Type :=
  | Ok (a : A)
  | Raise (e : exn).

Arguments Ok {A} a.
Arguments Raise {A} e.

Definition bind {A B : Type} (r : result A) (k : A -> result B) : result B :=
  match r with
  | Ok a => k a
  | Raise e => Raise e
  end.

Notation "'let*' x ':=' r 'in' k" := (bind r (fun x => k))
  (at level 10, x name, r at level 100, k at level 200).

(** [x / n] for a float [x] and the int [n] returned by [len]: the int is
    converted to a float, and a zero divisor raises. *)
Definition truediv (x : PyFloat.float) (n : nat) : result PyFloat.float :=
  match n with
  | O => Raise ZeroDivisionError
  | S _ => Ok (PyFloat.div x (PyFloat.of_Z (Z.of_nat n)))
  end.

(** The builtin [sum] over floats.  The module does not say which
    interpreter runs it, and the interpreters differ: up to CPython 3.11
    the items are added from left to right; from CPython 3.12 on the
    rounding errors of these additions are accumulated beside the running
    sum (Neumaier's compensated summation) and added at the end. *)
Inductive sum_algorithm : Type :=
  | PlainSum
  | CompensatedSum.

(** One step of the compensated loop: [f_result] is the running sum and
    [c] the accumulated compensation. *)
Definition neumaier_step (st : PyFloat.float * PyFloat.float) (x : PyFloat.float)
    : PyFloat.float * PyFloat.float :=
  let '(f_result, c) := st in
  let t := PyFloat.add f_result x in
  let c' :=
    if PyFloat.leb (PyFloat.abs x) (PyFloat.abs f_result)
    then PyFloat.add c (PyFloat.add (PyFloat.sub f_result t) x)
    else PyFloat.add c (PyFloat.add (PyFloat.sub x t) f_result) in
  (t, c').

(** [sum(xs)], starting from the int [0].  In the compensated variant
    the first item is added to [0] as such, the loop runs over the
    others, and the compensation is added only when it is finite and not
    zero. *)
Definition py_sum (alg : sum_algorithm) (xs : list PyFloat.float) : PyFloat.float :=
  match alg with
  | PlainSum => fold_left PyFloat.add xs PyFloat.zero
  | CompensatedSum =>
      match xs with
      | [] => PyFloat.zero
      | x :: rest =>
          let '(f_result, c) :=
            fold_left neumaier_step rest (PyFloat.add PyFloat.zero x, PyFloat.zero) in
          match c with
          | S754_finite _ _ _ => PyFloat.add f_result c
          | _ => f_result
          end
      end
  end.

(** [sep.join(lines)] *)
Fixpoint join (sep : string) (lines : list string) : string :=
  match lines with
  | [] => EmptyString
  | [l] => l
  | l :: rest => String.append l (String.append sep (join sep rest))
  end.

Definition nl : string := String "010"%char EmptyString.

(** ** [load_balancer.py] *)

Module LoadBalancer.

(** Configuration constants. *)
Definition MAX_LOAD_PER_ZONE : PyFloat.float := PyFloat.literal 1000 (-1).
Definition IDEAL_VARIANCE : PyFloat.float := PyFloat.literal 150 (-1).

(** A circuit zone and its electrical load in kW. *)
Record ZoneLoad : Type := mkZoneLoad { name : string; load : PyFloat.float }.

(** [ZoneLoad.__init__]: the only validation is the sign of the load. *)
Definition construct (name : string) (load : PyFloat.float) : result ZoneLoad :=
  if PyFloat.ltb load PyFloat.zero
  then Raise (ValueError
                (String.append "Load for zone '"
                   (String.append name "' cannot be negative.")))
  else Ok (mkZoneLoad name load).

Definition __repr__ (self : ZoneLoad) : string :=
  String.append "ZoneLoad(name='"
    (String.append (name self)
       (String.append "', load="
          (String.append (PyFloat.repr (load self)) " kW)"))).

(** [[z for z in zones if z.load > MAX_LOAD_PER_ZONE]] *)
Fixpoint detect_overloads (zones : list ZoneLoad) : list ZoneLoad :=
  match zones with
  | [] => []
  | z :: rest =>
      if PyFloat.ltb MAX_LOAD_PER_ZONE (load z)
      then z :: detect_overloads rest
      else detect_overloads rest
  end.

(** [sum(z.load for z in zones)] *)
Definition calculate_total_load (alg : sum_algorithm) (zones : list ZoneLoad)
    : PyFloat.float :=
  py_sum alg (List.map load zones).

(** [round(total / len(zones), 2)] *)
Definition calculate_ideal_load (alg : sum_algorithm) (zones : list ZoneLoad)
    : result PyFloat.float :=
  let total := calculate_total_load alg zones in
  let* quotient := truediv total (List.length zones) in
  Ok (PyFloat.round quotient 2).

(** One iteration of the loop of [recommend_redistribution]. *)
Definition redistribution_step (ideal : PyFloat.float)
    (adjustments : list (string * string)) (z : ZoneLoad)
    : list (string * string) :=
  let diff := PyFloat.round (PyFloat.sub (load z) ideal) 2 in
  if PyFloat.ltb (PyFloat.abs diff) (PyFloat.literal 10 (-1))
  then adjustments
  else if PyFloat.ltb PyFloat.zero diff
  then adjustments ++
       [(name z, String.append "Reduce load by "
                   (String.append (PyFloat.repr diff) " kW"))]
  else adjustments ++
       [(name z, String.append "Increase load by "
                   (String.append (PyFloat.repr (PyFloat.opp diff)) " kW"))].

Definition recommend_redistribution (alg : sum_algorithm) (zones : list ZoneLoad)
    : result (list (string * string)) :=
  let* ideal := calculate_ideal_load alg zones in
  let adjustments := [] in
  Ok (fold_left (redistribution_step ideal) zones adjustments).

(** UTF-8 encodings of the two glyphs of the report (U+26A0 U+FE0F and
    U+2714 U+FE0F). *)
Definition bytes (codes : list nat) : string :=
  string_of_list_ascii (List.map ascii_of_nat codes).
Definition WARNING_SIGN : string := bytes [226; 154; 160; 239; 184; 143]%nat.
Definition CHECK_MARK : string := bytes [226; 156; 148; 239; 184; 143]%nat.

Definition generate_report (alg : sum_algorithm) (zones : list ZoneLoad)
    : result string :=
  let report_lines : list string := [] in
  let overloads := detect_overloads zones in
  let* ideal := calculate_ideal_load alg zones in
  let report_lines :=
    report_lines ++ [String.append "----- Load Balancing Analysis Report -----" nl] in
  let report_lines := report_lines ++ ["Zone Loads:"%string] in
  let report_lines :=
    fold_left
      (fun lines z =>
         lines ++ [String.append "  - "
                     (String.append (name z)
                        (String.append ": "
                           (String.append (PyFloat.repr (load z)) " kW")))])
      zones report_lines in
  let report_lines :=
    report_lines ++
    [String.append nl
       (String.append "Total Load: "
          (String.append (PyFloat.repr (calculate_total_load alg zones)) " kW"))] in
  let report_lines :=
    report_lines ++
    [String.append "Ideal Load Per Zone: "
       (String.append (PyFloat.repr ideal) (String.append " kW" nl))] in
  let report_lines :=
    match overloads with
    | _ :: _ =>
        fold_left
          (fun lines z =>
             lines ++ [String.append "   - "
                         (String.append (name z)
                            (String.append " ("
                               (String.append (PyFloat.repr (load z)) " kW)")))])
          overloads
          (report_lines ++
           [String.append WARNING_SIGN "  Overloaded Zones Detected:"])
    | [] =>
        report_lines ++
        [String.append "No overloaded zones detected. " CHECK_MARK]
    end in
  let* adjustments := recommend_redistribution alg zones in
  let report_lines :=
    match adjustments with
    | _ :: _ =>
        fold_left
          (fun lines '(zone, action) =>
             lines ++ [String.append "   - "
                         (String.append zone (String.append ": " action))])
          adjustments
          (report_lines ++ [String.append nl "Recommended Adjustments:"])
    | [] =>
        report_lines ++
        [String.append nl
           (String.append "Load distribution is optimal. " CHECK_MARK)]
    end in
  Ok (join nl report_lines).

(** The zones of the demonstration block. *)
Definition sample_zones : list ZoneLoad :=
  [ mkZoneLoad "Zone A" (PyFloat.literal 1200 (-1));
    mkZoneLoad "Zone B" (PyFloat.literal 800 (-1));
    mkZoneLoad "Zone C" (PyFloat.literal 950 (-1));
    mkZoneLoad "Zone D" (PyFloat.literal 400 (-1)) ].

End LoadBalancer.

(** ** [tests/test_dashboard_ui.py]: the table of expected values *)

Module TestDashboardUI.

Record expected : Type := mkExpected { load : PyFloat.float; status : string }.

Definition expected_values : gmap string expected :=
  <[ "A"%string := mkExpected (PyFloat.literal 1200 (-1)) "OVERLOAD" ]>
  (<[ "B"%string := mkExpected (PyFloat.literal 800 (-1)) "OK" ]>
  (<[ "C"%string := mkExpected (PyFloat.literal 950 (-1)) "OVERLOAD" ]>
  (<[ "D"%string := mkExpected (PyFloat.literal 400 (-1)) "OK" ]> ∅))).

End TestDashboardUI.

(** ** [pages/dashboard_page.py] and the test function

    The page object reads the dashboard through a Selenium driver.  The
    driver, the page it has loaded and the two Python builtins applied to
    the text that comes back are outside the repository; they are the
    fields of [browser]. *)

Module DashboardPage.

Record browser (element error : Type) : Type := mkBrowser {
  find_element : string -> element + error;
  text : element -> string;
  get_attribute : element -> string -> option string;
  strip : string -> string;
  float_of_string : string -> option PyFloat.float
}.

Arguments find_element {element error}.
Arguments text {element error}.
Arguments get_attribute {element error}.
Arguments strip {element error}.
Arguments float_of_string {element error}.

(** What a test run can raise. *)
Inductive test_error (error : Type) : Type :=
  | AssertionError (msg : option string)
  | TypeError
  | FloatValueError
  | DriverError (e : error).

Arguments AssertionError {error} msg.
Arguments TypeError {error}.
Arguments FloatValueError {error}.
Arguments DriverError {error} e.

Definition load_selector (zone_id : string) : string :=
  String.append "#zone-" (String.append zone_id " .load").

Definition status_selector (zone_id : string) : string :=
  String.append "#zone-" (String.append zone_id " .status").

Definition get_zone_load {element error} (driver : browser element error)
    (zone_id : string) : PyFloat.float + test_error error :=
  let selector := load_selector zone_id in
  match find_element driver selector with
  | inr e => inr (DriverError e)
  | inl elem =>
      match float_of_string driver (strip driver (text driver elem)) with
      | Some x => inl x
      | None => inr FloatValueError
      end
  end.

Definition get_zone_status {element error} (driver : browser element error)
    (zone_id : string) : (string * option string) + test_error error :=
  let selector := status_selector zone_id in
  match find_element driver selector with
  | inr e => inr (DriverError e)
  | inl elem =>
      inl (strip driver (text driver elem), get_attribute driver elem "class")
  end.

End DashboardPage.

Module TestDashboardZones.

Import DashboardPage.

(** [needle in haystack] for two strings. *)
Fixpoint contains (needle haystack : string) : bool :=
  String.prefix needle haystack
  || match haystack with
     | EmptyString => false
     | String _ rest => contains needle rest
     end.

(** The items of [expected_values] in the order of the dict display. *)
Definition expected_items : list (string * TestDashboardUI.expected) :=
  [ ("A"%string, TestDashboardUI.mkExpected (PyFloat.literal 1200 (-1)) "OVERLOAD");
    ("B"%string, TestDashboardUI.mkExpected (PyFloat.literal 800 (-1)) "OK");
    ("C"%string, TestDashboardUI.mkExpected (PyFloat.literal 950 (-1)) "OVERLOAD");
    ("D"%string, TestDashboardUI.mkExpected (PyFloat.literal 400 (-1)) "OK") ].

(** [assert needle in attribute]: a missing attribute is [None], on which
    [in] raises. *)
Definition assert_class {error} (needle : string) (attribute : option string)
    : unit + test_error error :=
  match attribute with
  | None => inr TypeError
  | Some status_class =>
      if contains needle status_class then inl tt
      else inr (AssertionError None)
  end.

(** The body of the loop of [test_dashboard_zones]. *)
Definition check_zone {element error} (driver : browser element error)
    (zone : string) (expected : TestDashboardUI.expected)
    : unit + test_error error :=
  match get_zone_load driver zone with
  | inr e => inr e
  | inl load =>
      match get_zone_status driver zone with
      | inr e => inr e
      | inl (status_text, status_class) =>
          if negb (SFeqb load (TestDashboardUI.load expected))
          then inr (AssertionError (Some (String.append zone " load mismatch")))
          else if negb (contains (TestDashboardUI.status expected) status_text)
          then inr (AssertionError
                      (Some (String.append zone " status text mismatch")))
          else if String.eqb (TestDashboardUI.status expected) "OVERLOAD"
          then assert_class "overload" status_class
          else assert_class "ok" status_class
      end
  end.

Fixpoint check_zones {element error} (driver : browser element error)
    (items : list (string * TestDashboardUI.expected))
    : unit + test_error error :=
  match items with
  | [] => inl tt
  | (zone, expected) :: rest =>
      match check_zone driver zone expected with
      | inr e => inr e
      | inl _ => check_zones driver rest
      end
  end.

Definition test_dashboard_zones {element error} (driver : browser element error)
    : unit + test_error error :=
  check_zones driver expected_items.

(** A dashboard as a table from zone ids to the load text, the status
    text and the class of the status element, and the browser showing
    it; the texts are taken as they are and loads are read by
    [parse]. *)
Definition table_browser
    (rows : list (string * (string * string * string)))
    (parse : string -> option PyFloat.float)
    : browser (string * option string) unit :=
  mkBrowser (string * option string) unit
    (fun selector =>
       match List.find
               (fun row => String.eqb (load_selector (fst row)) selector) rows with
       | Some (_, (load_text, _, _)) => inl (load_text, None)
       | None =>
           match List.find
                   (fun row => String.eqb (status_selector (fst row)) selector)
                   rows with
           | Some (_, (_, status_text, status_class)) =>
               inl (status_text, Some status_class)
           | None => inr tt
           end
       end)
    fst
    (fun elem attribute =>
       if String.eqb attribute "class" then snd elem else None)
    (fun s => s)
    parse.

(** Reads the four load texts of the expected values. *)
Definition parse_sample (s : string) : option PyFloat.float :=
  if String.eqb s "120.0" then Some (PyFloat.literal 1200 (-1))
  else if String.eqb s "80.0" then Some (PyFloat.literal 800 (-1))
  else if String.eqb s "95.0" then Some (PyFloat.literal 950 (-1))
  else if String.eqb s "40.0" then Some (PyFloat.literal 400 (-1))
  else None.

(** A dashboard that marks zone C as overloaded, and one that follows
    the threshold of 100.0. *)
Definition fixture_dashboard : list (string * (string * string * string)) :=
  [ ("A", ("120.0", "OVERLOAD", "status overload"));
    ("B", ("80.0", "OK", "status ok"));
    ("C", ("95.0", "OVERLOAD", "status overload"));
    ("D", ("40.0", "OK", "status ok")) ]%string.

Definition threshold_dashboard : list (string * (string * string * string)) :=
  [ ("A", ("120.0", "OVERLOAD", "status overload"));
    ("B", ("80.0", "OK", "status ok"));
    ("C", ("95.0", "OK", "status ok"));
    ("D", ("40.0", "OK", "status ok")) ]%string.

End TestDashboardZones.

Import LoadBalancer.

(** ** Auxiliary definitions for the statements *)

(** The test of the comprehension in [detect_overloads], as a
    proposition. *)
Definition overloaded (z : ZoneLoad) : Prop :=
  PyFloat.ltb MAX_LOAD_PER_ZONE (LoadBalancer.load z) = true.

#[local] Instance overloaded_dec z : Decision (overloaded z).
Proof. unfold overloaded. apply _. Defined.

(** What one zone contributes to the list of adjustments. *)
Definition zone_directive (ideal : PyFloat.float) (z : ZoneLoad)
    : list (string * string) :=
  redistribution_step ideal [] z.

(** Zones just under, at and just over the overload threshold. *)
Definition boundary_zones : list ZoneLoad :=
  [ mkZoneLoad "Under" (PyFloat.literal 9999 (-2));
    mkZoneLoad "At" (PyFloat.literal 1000 (-1));
    mkZoneLoad "Over" (PyFloat.literal 10001 (-2)) ].

(** Two zones whose rounded differences to the ideal load are exactly
    1.0 and -1.0. *)
Definition tolerance_edge_zones : list ZoneLoad :=
  [ mkZoneLoad "A" (PyFloat.literal 20 (-1));
    mkZoneLoad "B" (PyFloat.literal 0 (-1)) ].

(** Two zones whose rounded differences are 0.99 and -0.99. *)
Definition within_tolerance_zones : list ZoneLoad :=
  [ mkZoneLoad "A" (PyFloat.literal 199 (-2));
    mkZoneLoad "B" (PyFloat.literal 1 (-2)) ].

(** One zone at 0.999 kW among 199 idle zones: the ideal load rounds to
    0.0, so the difference of the first zone is 0.999 before rounding. *)
Definition raw_0999_zones : list ZoneLoad :=
  mkZoneLoad "A" (PyFloat.literal 999 (-3))
  :: repeat (mkZoneLoad "B" (PyFloat.literal 0 (-1))) 199.



(** The lines of the report, written by section. *)
Definition zone_line (z : ZoneLoad) : string :=
  String.append "  - "
    (String.append (name z)
       (String.append ": "
          (String.append (PyFloat.repr (LoadBalancer.load z)) " kW"))).

Definition overload_line (z : ZoneLoad) : string :=
  String.append "   - "
    (String.append (name z)
       (String.append " ("
          (String.append (PyFloat.repr (LoadBalancer.load z)) " kW)"))).

Definition adjustment_line (adjustment : string * string) : string :=
  String.append "   - "
    (String.append (fst adjustment) (String.append ": " (snd adjustment))).

Definition overload_section (overloads : list ZoneLoad) : list string :=
  match overloads with
  | [] => [String.append "No overloaded zones detected. " CHECK_MARK]
  | _ :: _ =>
      String.append WARNING_SIGN "  Overloaded Zones Detected:"
      :: List.map overload_line overloads
  end.

Definition adjustment_section (adjustments : list (string * string))
    : list string :=
  match adjustments with
  | [] => [String.append nl
             (String.append "Load distribution is optimal. " CHECK_MARK)]
  | _ :: _ =>
      String.append nl "Recommended Adjustments:"
      :: List.map adjustment_line adjustments
  end.

Definition report_lines_of (alg : sum_algorithm) (zones : list ZoneLoad)
    (ideal : PyFloat.float) (adjustments : list (string * string)) : list string :=
  [ String.append "----- Load Balancing Analysis Report -----" nl;
    "Zone Loads:"%string ]
  ++ List.map zone_line zones
  ++ [ String.append nl
         (String.append "Total Load: "
            (String.append (PyFloat.repr (calculate_total_load alg zones)) " kW"));
       String.append "Ideal Load Per Zone: "
         (String.append (PyFloat.repr ideal) (String.append " kW" nl)) ]
  ++ overload_section (detect_overloads zones)
  ++ adjustment_section adjustments.

(** The float printed in a directive. *)
Definition directive_amount (ideal : PyFloat.float) (z : ZoneLoad) : PyFloat.float :=
  let diff := PyFloat.round (PyFloat.sub (LoadBalancer.load z) ideal) 2 in
  if PyFloat.ltb PyFloat.zero diff then diff else PyFloat.opp diff.

(** Within the tolerance band of 1.0 kW around the ideal load. *)
Definition within_tolerance (ideal : PyFloat.float) (z : ZoneLoad) : bool :=
  PyFloat.ltb
    (PyFloat.abs (PyFloat.round (PyFloat.sub (LoadBalancer.load z) ideal) 2))
    (PyFloat.literal 10 (-1)).

(** [y] is [x] rounded to two decimal places: for a finite [x] it is the
    double read from [n / 100], where [n] is an integer nearest to
    [|x| * 100], the even one when two are equally near; zeros,
    infinities and NaN are left as they are. *)
Definition rounded_to_hundredths (x y : PyFloat.float) : Prop :=
  match x with
  | S754_finite s m e =>
      exists n : Z,
        0 <= n
        /\ y = PyFloat.strtod s n (-2)
        /\ Z.abs (2 * (fst (PyFloat.rational_of m e) * 100
                       - n * snd (PyFloat.rational_of m e)))
           <= snd (PyFloat.rational_of m e)
        /\ (Z.abs (2 * (fst (PyFloat.rational_of m e) * 100
                        - n * snd (PyFloat.rational_of m e)))
            = snd (PyFloat.rational_of m e) ->
            Z.even n = true)
  | _ => y = x
  end.

(** Two zones whose mean, 1.375, is not a hundredth. *)
Definition rounded_mean_zones : list ZoneLoad :=
  [ mkZoneLoad "A" (PyFloat.literal 25 (-1));
    mkZoneLoad "B" (PyFloat.literal 25 (-2)) ].

(** The sign bit is clear: [+0.0], a positive finite float or [+inf]. *)
Definition sign_clear (x : PyFloat.float) : Prop :=
  match x with
  | S754_zero s | S754_infinity s | S754_finite s _ _ => s = false
  | S754_nan => False
  end.

(** Not below zero as Python compares: sign clear, a zero, or NaN. *)
Definition not_negative (x : PyFloat.float) : Prop :=
  PyFloat.ltb x PyFloat.zero = false.

(** * Properties *)

(** ** Facts about float comparison and addition *)

Section FloatFacts.

Implicit Types x y : PyFloat.float.

Lemma ltb_zero_asym x :
  PyFloat.ltb PyFloat.zero x = true -> PyFloat.ltb x PyFloat.zero = false.
Proof. destruct x as [s|s| |s m e]; try destruct s; cbn; congruence. Qed.

Lemma ltb_zero_asym' x :
  PyFloat.ltb x PyFloat.zero = true -> PyFloat.ltb PyFloat.zero x = false.
Proof. destruct x as [s|s| |s m e]; try destruct s; cbn; congruence. Qed.

Lemma leb_zero_not_ltb x :
  PyFloat.leb PyFloat.zero x = true -> PyFloat.ltb x PyFloat.zero = false.
Proof. destruct x as [s|s| |s m e]; try destruct s; cbn; congruence. Qed.




End FloatFacts.

(** ** The error monad *)

Lemma bind_Ok {A B} (a : A) (k : A -> result B) : bind (Ok a) k = k a.
Proof. reflexivity. Qed.

Lemma bind_Raise {A B} (e : exn) (k : A -> result B) : bind (Raise e) k = Raise e.
Proof. reflexivity. Qed.


(** ** Overload detection *)

Lemma detect_overloads_filter zones :
  detect_overloads zones = filter overloaded zones.
Proof.
  induction zones as [|z zones IH]; [reflexivity|].
  cbn [detect_overloads]. rewrite filter_cons, IH.
  destruct (decide (overloaded z)) as [Hz|Hz]; unfold overloaded in Hz.
  - rewrite Hz. reflexivity.
  - apply not_true_is_false in Hz. rewrite Hz. reflexivity.
Qed.

Lemma sublist_all_filter {A} (P : A -> Prop) `{!forall x, Decision (P x)}
    (l k : list A) :
  l `sublist_of` k -> Forall P l -> l `sublist_of` filter P k.
Proof.
  induction 1 as [|x l k Hs IH|x l k Hs IH]; intros Hall.
  - constructor.
  - apply Forall_cons in Hall as [Hx Hl].
    rewrite filter_cons_True by assumption. constructor. auto.
  - rewrite filter_cons. destruct (decide (P x)); [constructor|]; auto.
Qed.

(** C2: [detect_overloads] returns exactly the zones whose load is
    strictly greater than 100.0, in input order: the result is a
    subsequence of the input, it contains a zone exactly when the zone is
    in the input with [load > 100.0], every subsequence of overloaded
    zones is a subsequence of it, and a zone at exactly 100.0 is never
    in it. *)
Theorem detect_overloads_exact (zones : list ZoneLoad) :
  detect_overloads zones `sublist_of` zones
  /\ (forall z, z ∈ detect_overloads zones
                <-> z ∈ zones
                    /\ PyFloat.ltb (PyFloat.literal 1000 (-1)) (LoadBalancer.load z) = true)
  /\ (forall l, l `sublist_of` zones ->
                Forall (fun z => PyFloat.ltb (PyFloat.literal 1000 (-1))
                                   (LoadBalancer.load z) = true) l ->
                l `sublist_of` detect_overloads zones)
  /\ (forall z, LoadBalancer.load z = PyFloat.literal 1000 (-1) ->
                z ∉ detect_overloads zones).
Proof.
  rewrite detect_overloads_filter. split; [|split; [|split]].
  - apply sublist_filter.
  - intros z. rewrite list_elem_of_filter. unfold overloaded, MAX_LOAD_PER_ZONE.
    tauto.
  - intros l Hl Hall. apply (sublist_all_filter overloaded); assumption.
  - intros z Hload Hz. apply list_elem_of_filter in Hz as [Hz _].
    unfold overloaded in Hz. rewrite Hload in Hz. vm_compute in Hz.
    discriminate.
Qed.

(** The zone at exactly 100.0 kW is left out, the one at 100.01 kW is
    kept. *)
Lemma detect_overloads_exact_witness :
  (mkZoneLoad "At" (PyFloat.literal 1000 (-1)) ∉ detect_overloads boundary_zones)
  /\ ([mkZoneLoad "Over" (PyFloat.literal 10001 (-2))]
        `sublist_of` detect_overloads boundary_zones).
Proof.
  split.
  - apply (proj2 (proj2 (proj2 (detect_overloads_exact boundary_zones)))).
    reflexivity.
  - apply (proj1 (proj2 (proj2 (detect_overloads_exact boundary_zones)))).
    + apply sublist_cons, sublist_cons, sublist_skip, sublist_nil.
    + repeat constructor.
Defined.

Example detect_overloads_boundary :
  detect_overloads boundary_zones
  = [mkZoneLoad "Over" (PyFloat.literal 10001 (-2))].
Proof. vm_compute. reflexivity. Qed.

(** ** Construction *)

(** C8: [construct name load] fails (with the [ValueError] of the
    constructor) exactly when [load < 0]; it succeeds, storing both
    fields unchanged, for every other load, in particular for every
    [load >= 0], whatever the name. *)
Theorem construct_validates_only_sign (name : string) (load : PyFloat.float) :
  ((exists e, construct name load = Raise e)
   <-> PyFloat.ltb load PyFloat.zero = true)
  /\ (PyFloat.ltb load PyFloat.zero = true ->
      construct name load
      = Raise (ValueError
                 (String.append "Load for zone '"
                    (String.append name "' cannot be negative."))))
  /\ (PyFloat.ltb load PyFloat.zero = false ->
      construct name load = Ok (mkZoneLoad name load))
  /\ (PyFloat.leb PyFloat.zero load = true ->
      construct name load = Ok (mkZoneLoad name load)).
Proof.
  unfold construct.
  destruct (PyFloat.ltb load PyFloat.zero) eqn:Hneg.
  - repeat split; try congruence; eauto.
    intros Hge. apply leb_zero_not_ltb in Hge. congruence.
  - repeat split; try congruence.
    intros [e He]. discriminate.
Qed.

(** An empty name with a zero load is accepted; a load of -0.01 is
    rejected. *)
Lemma construct_validates_only_sign_witness :
  construct "" PyFloat.zero = Ok (mkZoneLoad "" PyFloat.zero)
  /\ construct "Zone A" (PyFloat.literal (-1) (-2))
     = Raise (ValueError "Load for zone 'Zone A' cannot be negative.").
Proof.
  split.
  - apply (proj2 (proj2 (proj2
             (construct_validates_only_sign "" PyFloat.zero)))).
    reflexivity.
  - apply (proj1 (proj2
             (construct_validates_only_sign "Zone A" (PyFloat.literal (-1) (-2))))).
    reflexivity.
Defined.

(** Not-a-number and negative zero are not below zero, so they pass. *)
Example construct_nan :
  construct "Z" S754_nan = Ok (mkZoneLoad "Z" S754_nan)
  /\ construct "Z" (S754_zero true) = Ok (mkZoneLoad "Z" (S754_zero true)).
Proof. split; reflexivity. Qed.

(** Every zone of the demonstration block passes the constructor. *)
Example sample_zones_constructed :
  Forall (fun z => construct (name z) (LoadBalancer.load z) = Ok z) sample_zones.
Proof. repeat constructor. Qed.

(** ** Ideal load *)

Lemma truediv_nonzero x n :
  n <> O -> truediv x n = Ok (PyFloat.div x (PyFloat.of_Z (Z.of_nat n))).
Proof. destruct n; [congruence|reflexivity]. Qed.

Lemma calculate_ideal_load_nonempty {alg} zones :
  zones <> [] ->
  calculate_ideal_load alg zones
  = Ok (PyFloat.round
          (PyFloat.div (calculate_total_load alg zones)
             (PyFloat.of_Z (Z.of_nat (List.length zones)))) 2).
Proof.
  intros Hne. unfold calculate_ideal_load.
  rewrite truediv_nonzero; [reflexivity|].
  destruct zones; [congruence|discriminate].
Qed.

(** C6: [calculate_ideal_load] raises [ZeroDivisionError] on the empty
    sequence, and returns a number for every non-empty one. *)
Theorem calculate_ideal_load_fails_only_on_empty (alg : sum_algorithm) :
  calculate_ideal_load alg [] = Raise ZeroDivisionError
  /\ (forall zones, zones <> [] ->
        exists ideal, calculate_ideal_load alg zones = Ok ideal).
Proof.
  split; [destruct alg; reflexivity|].
  intros zones Hne. rewrite calculate_ideal_load_nonempty by assumption.
  eauto.
Qed.

Lemma calculate_ideal_load_fails_only_on_empty_witness :
  (exists ideal, calculate_ideal_load PlainSum sample_zones = Ok ideal)
  /\ (exists ideal, calculate_ideal_load CompensatedSum sample_zones = Ok ideal).
Proof.
  split.
  - apply (proj2 (calculate_ideal_load_fails_only_on_empty PlainSum) sample_zones).
    discriminate.
  - apply (proj2 (calculate_ideal_load_fails_only_on_empty CompensatedSum)
             sample_zones).
    discriminate.
Defined.

(** Infinite and undefined loads do not make it fail either. *)
Example calculate_ideal_load_infinite (alg : sum_algorithm) :
  calculate_ideal_load alg [mkZoneLoad "A" (S754_infinity false)]
  = Ok (S754_infinity false)
  /\ calculate_ideal_load alg [mkZoneLoad "A" S754_nan] = Ok S754_nan.
Proof. destruct alg; split; reflexivity. Qed.

(** C7: on the empty sequence [recommend_redistribution] and
    [generate_report] raise the [ZeroDivisionError] of
    [calculate_ideal_load]; neither returns an adjustment list or a
    report. *)
Theorem empty_input_raises (alg : sum_algorithm) :
  calculate_ideal_load alg [] = Raise ZeroDivisionError
  /\ recommend_redistribution alg [] = Raise ZeroDivisionError
  /\ generate_report alg [] = Raise ZeroDivisionError.
Proof. destruct alg; repeat split. Qed.

(** ** Redistribution *)

Lemma redistribution_step_app ideal adjustments z :
  redistribution_step ideal adjustments z = adjustments ++ zone_directive ideal z.
Proof.
  unfold zone_directive, redistribution_step. cbv zeta.
  destruct (PyFloat.ltb (PyFloat.abs _) _); [symmetry; apply app_nil_r|].
  destruct (PyFloat.ltb PyFloat.zero _); reflexivity.
Qed.

Lemma fold_redistribution_step ideal zones adjustments :
  fold_left (redistribution_step ideal) zones adjustments
  = adjustments ++ concat (List.map (zone_directive ideal) zones).
Proof.
  revert adjustments.
  induction zones as [|z zones IH]; intros adjustments; cbn [fold_left List.map concat].
  - symmetry. apply app_nil_r.
  - rewrite IH, redistribution_step_app, <- app_assoc. reflexivity.
Qed.

Lemma recommend_redistribution_nonempty {alg} zones :
  zones <> [] ->
  exists ideal,
    calculate_ideal_load alg zones = Ok ideal
    /\ recommend_redistribution alg zones
       = Ok (concat (List.map (zone_directive ideal) zones)).
Proof.
  intros Hne. unfold recommend_redistribution.
  rewrite (calculate_ideal_load_nonempty zones Hne). eexists. split; [reflexivity|].
  rewrite bind_Ok. cbv zeta. rewrite fold_redistribution_step. reflexivity.
Qed.

Lemma Forall2_map_r_intro {A B} (f : A -> B) (P : A -> B -> Prop) (l : list A) :
  (forall a, P a (f a)) -> Forall2 P l (List.map f l).
Proof. intros H. induction l; constructor; auto. Qed.

Lemma zone_directive_names ideal zones :
  List.map fst (concat (List.map (zone_directive ideal) zones))
  `sublist_of` List.map name zones.
Proof.
  induction zones as [|z zones IH]; cbn [List.map concat]; [constructor|].
  rewrite List.map_app.
  unfold zone_directive at 1, redistribution_step. cbv zeta.
  destruct (PyFloat.ltb (PyFloat.abs _) _).
  - cbn. apply sublist_cons, IH.
  - destruct (PyFloat.ltb PyFloat.zero _); cbn; apply sublist_skip, IH.
Qed.

Lemma round_half_even_div_nearest a b :
  0 <= a -> 0 < b ->
  let n := PyFloat.round_half_even_div a b in
  0 <= n
  /\ Z.abs (2 * (a - n * b)) <= b
  /\ (Z.abs (2 * (a - n * b)) = b -> Z.even n = true).
Proof.
  intros Ha Hb. unfold PyFloat.round_half_even_div. cbv zeta.
  pose proof (Z.div_mod a b ltac:(lia)) as Hdiv.
  pose proof (Z.mod_pos_bound a b Hb) as Hmod.
  pose proof (Z.div_pos a b Ha Hb) as Hq.
  destruct (Z.compare_spec (2 * (a mod b)) b) as [Heq|Hlt|Hgt].
  - destruct (Z.even (a / b)) eqn:Heven.
    + repeat split; [lia|nia|intros _; exact Heven].
    + repeat split; [lia|nia|].
      intros _. rewrite Z.even_add, Heven. reflexivity.
  - repeat split; [lia|nia|]. intros Htie. exfalso. nia.
  - repeat split; [lia|nia|]. intros Htie. exfalso. nia.
Qed.

Lemma round_to_hundredths x : rounded_to_hundredths x (PyFloat.round x 2).
Proof.
  destruct x as [s|s| |s m e]; try reflexivity.
  unfold rounded_to_hundredths, PyFloat.round, PyFloat.rational_of. cbv zeta.
  change (10 ^ 2) with 100. change (- (2)) with (-2).
  destruct (0 <=? e) eqn:He; cbn [fst snd].
  - apply Z.leb_le in He. pose proof (Z.pow_pos_nonneg 2 e ltac:(lia) He) as Hb.
    eexists. split; [|split; [reflexivity|]].
    + apply Z.mul_nonneg_nonneg; lia.
    + split; intros; lia.
  - apply Z.leb_gt in He. pose proof (Z.pow_pos_nonneg 2 (- e) ltac:(lia) ltac:(lia)) as Hb.
    destruct (round_half_even_div_nearest (Z.pos m * 100) (2 ^ (- e)) ltac:(lia) Hb)
      as (Hn & Hnear & Htie).
    eexists. split; [exact Hn|]. split; [reflexivity|]. split; assumption.
Qed.

(** C9: for a non-empty sequence [calculate_ideal_load] is the total load
    divided by the number of zones, rounded to 2 decimals (the nearest
    hundredth, ties to even), and [recommend_redistribution] takes each
    zone's difference from this same rounded value: the difference of a
    zone is [load - ideal] rounded to 2 decimals, and it alone decides
    what the zone contributes to the adjustments. *)
Theorem ideal_load_is_rounded_mean (alg : sum_algorithm) (zones : list ZoneLoad) :
  zones <> [] ->
  let mean :=
    PyFloat.div (calculate_total_load alg zones)
      (PyFloat.of_Z (Z.of_nat (List.length zones))) in
  let ideal := PyFloat.round mean 2 in
  calculate_ideal_load alg zones = Ok ideal
  /\ rounded_to_hundredths mean ideal
  /\ exists per_zone,
       recommend_redistribution alg zones = Ok (concat per_zone)
       /\ Forall2
            (fun z out =>
               let diff := PyFloat.round (PyFloat.sub (LoadBalancer.load z) ideal) 2 in
               rounded_to_hundredths (PyFloat.sub (LoadBalancer.load z) ideal) diff
               /\ out
                  = if PyFloat.ltb (PyFloat.abs diff) (PyFloat.literal 10 (-1))
                    then []
                    else if PyFloat.ltb PyFloat.zero diff
                    then [(name z,
                           String.append "Reduce load by "
                             (String.append (PyFloat.repr diff) " kW"))]
                    else [(name z,
                           String.append "Increase load by "
                             (String.append (PyFloat.repr (PyFloat.opp diff)) " kW"))])
            zones per_zone.
Proof.
  intros Hne mean ideal.
  pose proof (calculate_ideal_load_nonempty (alg := alg) zones Hne) as Hideal.
  fold mean ideal in Hideal.
  split; [exact Hideal|]. split; [apply round_to_hundredths|].
  exists (List.map (zone_directive ideal) zones). split.
  - unfold recommend_redistribution. rewrite Hideal, bind_Ok. cbv zeta.
    rewrite fold_redistribution_step. reflexivity.
  - apply Forall2_map_r_intro. intros z. cbv zeta.
    split; [apply round_to_hundredths|].
    unfold zone_directive, redistribution_step. cbv zeta.
    destruct (PyFloat.ltb (PyFloat.abs _) _); [reflexivity|].
    destruct (PyFloat.ltb PyFloat.zero _); reflexivity.
Qed.

(** Zones of 2.5 and 0.25 kW: the mean 1.375 is rounded to 1.38, and the
    differences are taken from 1.38, giving 1.12 and 1.13 (from the
    unrounded mean both would be 1.12). *)
Lemma ideal_load_is_rounded_mean_witness :
  calculate_ideal_load CompensatedSum rounded_mean_zones
  = Ok (PyFloat.literal 138 (-2))
  /\ PyFloat.div (calculate_total_load CompensatedSum rounded_mean_zones)
       (PyFloat.of_Z 2)
     = PyFloat.literal 1375 (-3)
  /\ recommend_redistribution CompensatedSum rounded_mean_zones
     = Ok [ ("A", "Reduce load by 1.12 kW"); ("B", "Increase load by 1.13 kW") ].
Proof.
  destruct (ideal_load_is_rounded_mean CompensatedSum rounded_mean_zones
              ltac:(discriminate)) as (Hideal & _ & per_zone & Hrec & Hper).
  split; [rewrite Hideal; vm_compute; reflexivity|].
  split; [vm_compute; reflexivity|].
  rewrite Hrec. f_equal.
  apply Forall2_cons_inv_l in Hper as (out1 & rest1 & [_ ->] & Hper & ->).
  apply Forall2_cons_inv_l in Hper as (out2 & rest2 & [_ ->] & Hper & ->).
  apply Forall2_nil_inv_l in Hper as ->.
  vm_compute. reflexivity.
Defined.

(** The division is a floating-point one and the rounding is to the
    nearest hundredth, ties to even: three zones sharing 100 kW get
    33.33, and a mean of 0.125 becomes 0.12. *)
Example calculate_ideal_load_thirds (alg : sum_algorithm) :
  calculate_ideal_load alg
    [ mkZoneLoad "A" (PyFloat.literal 1000 (-1));
      mkZoneLoad "B" (PyFloat.literal 0 (-1));
      mkZoneLoad "C" (PyFloat.literal 0 (-1)) ]
  = Ok (PyFloat.literal 3333 (-2))
  /\ calculate_ideal_load alg
       [ mkZoneLoad "A" (PyFloat.literal 25 (-2));
         mkZoneLoad "B" (PyFloat.literal 0 (-1)) ]
     = Ok (PyFloat.literal 12 (-2)).
Proof. destruct alg; split; vm_compute; reflexivity. Qed.

(** C4 (amended): for a non-empty sequence the adjustments are the
    concatenation, in input order, of one block per zone; the block of a
    zone is empty exactly when [|round(load - ideal, 2)| < 1.0], and
    otherwise holds a single directive under the zone's name.  A rounded
    difference of exactly 1.0 or -1.0 therefore receives a directive.
    The rounding comes first: a difference of 0.999 rounds to 1.0 and
    receives a directive as well. *)
Theorem recommend_redistribution_skips_within_tolerance
    (alg : sum_algorithm) (zones : list ZoneLoad) :
  zones <> [] ->
  exists ideal per_zone,
    calculate_ideal_load alg zones = Ok ideal
    /\ recommend_redistribution alg zones = Ok (concat per_zone)
    /\ Forall2
         (fun z out =>
            let diff := PyFloat.round (PyFloat.sub (LoadBalancer.load z) ideal) 2 in
            (out = [] <->
             PyFloat.ltb (PyFloat.abs diff) (PyFloat.literal 10 (-1)) = true)
            /\ (out = [] \/ exists directive, out = [(name z, directive)])
            /\ (diff = PyFloat.literal 10 (-1) \/ diff = PyFloat.literal (-10) (-1) ->
                out <> [])
            /\ (PyFloat.sub (LoadBalancer.load z) ideal = PyFloat.literal 999 (-3) ->
                diff = PyFloat.literal 10 (-1) /\ out <> []))
         zones per_zone.
Proof.
  intros Hne.
  destruct (recommend_redistribution_nonempty (alg := alg) zones Hne)
    as (ideal & Hideal & Hrec).
  exists ideal, (List.map (zone_directive ideal) zones).
  split; [exact Hideal|]. split; [exact Hrec|].
  apply Forall2_map_r_intro. intros z. cbv zeta.
  assert (Hskip :
    zone_directive ideal z = [] <->
    PyFloat.ltb
      (PyFloat.abs (PyFloat.round (PyFloat.sub (LoadBalancer.load z) ideal) 2))
      (PyFloat.literal 10 (-1)) = true).
  { unfold zone_directive, redistribution_step. cbv zeta.
    destruct (PyFloat.ltb (PyFloat.abs _) _); [tauto|].
    destruct (PyFloat.ltb PyFloat.zero _); split; discriminate. }
  split; [exact Hskip|]. split; [|split].
  - unfold zone_directive, redistribution_step. cbv zeta.
    destruct (PyFloat.ltb (PyFloat.abs _) _); [left; reflexivity|].
    destruct (PyFloat.ltb PyFloat.zero _); right; eexists; reflexivity.
  - intros Hd Hout. apply Hskip in Hout.
    destruct Hd as [Hd|Hd]; rewrite Hd in Hout; vm_compute in Hout; discriminate.
  - intros Hraw. rewrite Hraw in Hskip |- *.
    split; [vm_compute; reflexivity|].
    intros Hout. apply Hskip in Hout. vm_compute in Hout. discriminate.
Qed.

Lemma recommend_redistribution_skips_within_tolerance_witness :
  exists ideal per_zone,
    calculate_ideal_load CompensatedSum tolerance_edge_zones = Ok ideal
    /\ recommend_redistribution CompensatedSum tolerance_edge_zones
       = Ok (concat per_zone)
    /\ Forall2
         (fun z out =>
            let diff := PyFloat.round (PyFloat.sub (LoadBalancer.load z) ideal) 2 in
            (out = [] <->
             PyFloat.ltb (PyFloat.abs diff) (PyFloat.literal 10 (-1)) = true)
            /\ (out = [] \/ exists directive, out = [(name z, directive)])
            /\ (diff = PyFloat.literal 10 (-1) \/ diff = PyFloat.literal (-10) (-1) ->
                out <> [])
            /\ (PyFloat.sub (LoadBalancer.load z) ideal = PyFloat.literal 999 (-3) ->
                diff = PyFloat.literal 10 (-1) /\ out <> []))
         tolerance_edge_zones per_zone.
Proof.
  apply (recommend_redistribution_skips_within_tolerance
           CompensatedSum tolerance_edge_zones).
  discriminate.
Defined.

(** At the edge of the tolerance band: rounded differences of 1.0 and
    -1.0 are adjusted, rounded differences of 0.99 and -0.99 are not. *)
Example recommend_redistribution_tolerance_edge (alg : sum_algorithm) :
  recommend_redistribution alg tolerance_edge_zones
  = Ok [("A", "Reduce load by 1.0 kW"); ("B", "Increase load by 1.0 kW")]
  /\ recommend_redistribution alg within_tolerance_zones = Ok [].
Proof. destruct alg; split; vm_compute; reflexivity. Qed.

(** A zone whose difference to the ideal load is 0.999 before rounding is
    not skipped: the difference is rounded to 1.0 first.  So it is not
    true that a zone with [|diff| = 0.999] receives no directive. *)
Lemma raw_difference_0999_receives_directive :
  PyFloat.abs (PyFloat.sub (PyFloat.literal 999 (-3)) PyFloat.zero)
  = PyFloat.literal 999 (-3)
  /\ PyFloat.round (PyFloat.literal 999 (-3)) 2 = PyFloat.literal 10 (-1)
  /\ (forall alg,
        calculate_ideal_load alg raw_0999_zones = Ok PyFloat.zero
        /\ recommend_redistribution alg raw_0999_zones
           = Ok [("A", "Reduce load by 1.0 kW")])
  /\ (forall alg,
        ~ (forall zones z ideal adjustments,
             z ∈ zones ->
             calculate_ideal_load alg zones = Ok ideal ->
             PyFloat.abs (PyFloat.sub (LoadBalancer.load z) ideal)
             = PyFloat.literal 999 (-3) ->
             recommend_redistribution alg zones = Ok adjustments ->
             name z ∉ List.map fst adjustments)).
Proof.
  assert (Hrun : forall alg,
            calculate_ideal_load alg raw_0999_zones = Ok PyFloat.zero
            /\ recommend_redistribution alg raw_0999_zones
               = Ok [("A", "Reduce load by 1.0 kW")])
    by (intros []; split; vm_compute; reflexivity).
  split; [vm_compute; reflexivity|].
  split; [vm_compute; reflexivity|]. split; [exact Hrun|].
  intros alg Hclaim. destruct (Hrun alg) as [Hideal Hrec].
  apply (Hclaim raw_0999_zones (mkZoneLoad "A" (PyFloat.literal 999 (-3)))
           PyFloat.zero [("A", "Reduce load by 1.0 kW")]);
    [left | exact Hideal | vm_compute; reflexivity | exact Hrec | left].
Qed.

(** C5: for a non-empty sequence the adjustments follow the input order
    (they are the concatenation of one block per zone, and their names
    form a subsequence of the zone names); a zone that is not skipped
    gets ["Reduce load by {diff} kW"] when [diff > 0] and
    ["Increase load by {-diff} kW"] when [diff < 0], where
    [diff = round(load - ideal, 2)]. *)
Theorem recommend_redistribution_directives
    (alg : sum_algorithm) (zones : list ZoneLoad) :
  zones <> [] ->
  exists ideal per_zone,
    calculate_ideal_load alg zones = Ok ideal
    /\ recommend_redistribution alg zones = Ok (concat per_zone)
    /\ List.map fst (concat per_zone) `sublist_of` List.map name zones
    /\ Forall2
         (fun z out =>
            let diff := PyFloat.round (PyFloat.sub (LoadBalancer.load z) ideal) 2 in
            (PyFloat.ltb (PyFloat.abs diff) (PyFloat.literal 10 (-1)) = true ->
             out = [])
            /\ (PyFloat.ltb (PyFloat.abs diff) (PyFloat.literal 10 (-1)) = false ->
                PyFloat.ltb PyFloat.zero diff = true ->
                out = [(name z,
                        String.append "Reduce load by "
                          (String.append (PyFloat.repr diff) " kW"))])
            /\ (PyFloat.ltb (PyFloat.abs diff) (PyFloat.literal 10 (-1)) = false ->
                PyFloat.ltb diff PyFloat.zero = true ->
                out = [(name z,
                        String.append "Increase load by "
                          (String.append (PyFloat.repr (PyFloat.opp diff)) " kW"))]))
         zones per_zone.
Proof.
  intros Hne.
  destruct (recommend_redistribution_nonempty (alg := alg) zones Hne)
    as (ideal & Hideal & Hrec).
  exists ideal, (List.map (zone_directive ideal) zones).
  split; [exact Hideal|]. split; [exact Hrec|].
  split; [apply zone_directive_names|].
  apply Forall2_map_r_intro. intros z. cbv zeta.
  unfold zone_directive, redistribution_step. cbv zeta.
  split; [|split].
  - intros ->. reflexivity.
  - intros -> ->. reflexivity.
  - intros -> Hneg. rewrite (ltb_zero_asym' _ Hneg). reflexivity.
Qed.

Lemma recommend_redistribution_directives_witness :
  exists ideal per_zone,
    calculate_ideal_load CompensatedSum sample_zones = Ok ideal
    /\ recommend_redistribution CompensatedSum sample_zones = Ok (concat per_zone)
    /\ List.map fst (concat per_zone) `sublist_of` List.map name sample_zones
    /\ Forall2
         (fun z out =>
            let diff := PyFloat.round (PyFloat.sub (LoadBalancer.load z) ideal) 2 in
            (PyFloat.ltb (PyFloat.abs diff) (PyFloat.literal 10 (-1)) = true ->
             out = [])
            /\ (PyFloat.ltb (PyFloat.abs diff) (PyFloat.literal 10 (-1)) = false ->
                PyFloat.ltb PyFloat.zero diff = true ->
                out = [(name z,
                        String.append "Reduce load by "
                          (String.append (PyFloat.repr diff) " kW"))])
            /\ (PyFloat.ltb (PyFloat.abs diff) (PyFloat.literal 10 (-1)) = false ->
                PyFloat.ltb diff PyFloat.zero = true ->
                out = [(name z,
                        String.append "Increase load by "
                          (String.append (PyFloat.repr (PyFloat.opp diff)) " kW"))]))
         sample_zones per_zone.
Proof.
  apply (recommend_redistribution_directives CompensatedSum sample_zones).
  discriminate.
Defined.

(** An undefined difference (an infinite load makes the ideal load
    infinite) is neither positive nor negative; the loop takes its last
    branch. *)
Example recommend_redistribution_undefined_diff (alg : sum_algorithm) :
  recommend_redistribution alg [mkZoneLoad "A" (S754_infinity false)]
  = Ok [("A", "Increase load by nan kW")].
Proof. destruct alg; vm_compute; reflexivity. Qed.

(** ** Total load *)





(** *** Two items under the compensated sum *)















(** The two summations differ on ordinary loads.  Added from left to
    right, 0.1, 0.2 and 0.3 give 0.6000000000000001 and in the opposite
    order 0.6; the compensated sum gives 0.6 in both orders.  For four
    zones of 99.4, 73.1, 84.9 and 70.9 kW the plain total is
    328.29999999999995 and the ideal load 82.07, the compensated total
    328.3 and the ideal load 82.08. *)
Example calculate_total_load_by_interpreter :
  let up := [ mkZoneLoad "A" (PyFloat.literal 1 (-1));
              mkZoneLoad "B" (PyFloat.literal 2 (-1));
              mkZoneLoad "C" (PyFloat.literal 3 (-1)) ] in
  let four := [ mkZoneLoad "A" (PyFloat.literal 994 (-1));
                mkZoneLoad "B" (PyFloat.literal 731 (-1));
                mkZoneLoad "C" (PyFloat.literal 849 (-1));
                mkZoneLoad "D" (PyFloat.literal 709 (-1)) ] in
  calculate_total_load PlainSum up = PyFloat.literal 6000000000000001 (-16)
  /\ calculate_total_load PlainSum (List.rev up) = PyFloat.literal 6 (-1)
  /\ calculate_total_load CompensatedSum up = PyFloat.literal 6 (-1)
  /\ calculate_total_load CompensatedSum (List.rev up) = PyFloat.literal 6 (-1)
  /\ calculate_total_load PlainSum four = PyFloat.literal 32829999999999995 (-14)
  /\ calculate_ideal_load PlainSum four = Ok (PyFloat.literal 8207 (-2))
  /\ calculate_total_load CompensatedSum four = PyFloat.literal 3283 (-1)
  /\ calculate_ideal_load CompensatedSum four = Ok (PyFloat.literal 8208 (-2)).
Proof. repeat split; vm_compute; reflexivity. Qed.

(** ** The demonstration zones *)

(** The zones of the demonstration block do not have Zone C among their
    overloads: its 95.0 kW is below the threshold. *)
Lemma sample_zone_C_is_not_overloaded :
  ~ (exists alg,
       calculate_total_load alg sample_zones = PyFloat.literal 3350 (-1)
       /\ calculate_ideal_load alg sample_zones = Ok (PyFloat.literal 8375 (-2))
       /\ detect_overloads sample_zones
          = [ mkZoneLoad "Zone A" (PyFloat.literal 1200 (-1));
              mkZoneLoad "Zone C" (PyFloat.literal 950 (-1)) ]
       /\ recommend_redistribution alg sample_zones
          = Ok [ ("Zone A", "Reduce load by 36.25 kW");
                 ("Zone B", "Increase load by 3.75 kW");
                 ("Zone C", "Reduce load by 11.25 kW");
                 ("Zone D", "Increase load by 43.75 kW") ]).
Proof.
  intros (alg & _ & _ & Hover & _). vm_compute in Hover. discriminate.
Qed.

(** C1 (amended): for the zones Zone A 120.0, Zone B 80.0, Zone C 95.0
    and Zone D 40.0 the total load is 335.0, the ideal load is 83.75,
    the only overloaded zone is Zone A, and the adjustments are, in input
    order, Zone A "Reduce load by 36.25 kW", Zone B "Increase load by
    3.75 kW", Zone C "Reduce load by 11.25 kW" and Zone D "Increase load
    by 43.75 kW". *)
Theorem sample_zones_analysis (alg : sum_algorithm) :
  calculate_total_load alg sample_zones = PyFloat.literal 3350 (-1)
  /\ calculate_ideal_load alg sample_zones = Ok (PyFloat.literal 8375 (-2))
  /\ detect_overloads sample_zones
     = [ mkZoneLoad "Zone A" (PyFloat.literal 1200 (-1)) ]
  /\ recommend_redistribution alg sample_zones
     = Ok [ ("Zone A", "Reduce load by 36.25 kW");
            ("Zone B", "Increase load by 3.75 kW");
            ("Zone C", "Reduce load by 11.25 kW");
            ("Zone D", "Increase load by 43.75 kW") ].
Proof. destruct alg; repeat split; vm_compute; reflexivity. Qed.

(** The report of the demonstration block lists the same values. *)
Example sample_zones_report (alg : sum_algorithm) :
  generate_report alg sample_zones
  = Ok (join nl
          [ String.append "----- Load Balancing Analysis Report -----" nl;
            "Zone Loads:";
            "  - Zone A: 120.0 kW";
            "  - Zone B: 80.0 kW";
            "  - Zone C: 95.0 kW";
            "  - Zone D: 40.0 kW";
            String.append nl "Total Load: 335.0 kW";
            String.append "Ideal Load Per Zone: 83.75 kW" nl;
            String.append WARNING_SIGN "  Overloaded Zones Detected:";
            "   - Zone A (120.0 kW)";
            String.append nl "Recommended Adjustments:";
            "   - Zone A: Reduce load by 36.25 kW";
            "   - Zone B: Increase load by 3.75 kW";
            "   - Zone C: Reduce load by 11.25 kW";
            "   - Zone D: Increase load by 43.75 kW" ]%string).
Proof. destruct alg; vm_compute; reflexivity. Qed.

(** ** The expected values of the dashboard test *)

(** C3: in the table of expected values the status is ["OVERLOAD"] for
    the entries A (120.0) and C (95.0) and ["OK"] for B and D, whereas
    [load > 100.0] holds for A only: the entry C is marked as overloaded
    although [detect_overloads] does not flag a load of 95.0. *)
Theorem expected_values_entry_C_disagrees :
  TestDashboardUI.expected_values !! "C"%string
  = Some (TestDashboardUI.mkExpected (PyFloat.literal 950 (-1)) "OVERLOAD")
  /\ PyFloat.ltb (PyFloat.literal 1000 (-1)) (PyFloat.literal 950 (-1)) = false
  /\ detect_overloads [mkZoneLoad "C" (PyFloat.literal 950 (-1))] = [].
Proof. repeat split; vm_compute; reflexivity. Qed.

(** Hence the table does not classify every entry by [load > 100.0]. *)
Lemma expected_values_not_classified_by_threshold :
  ~ (forall zone entry,
       TestDashboardUI.expected_values !! zone = Some entry ->
       (TestDashboardUI.status entry = "OVERLOAD"%string
        <-> PyFloat.ltb (PyFloat.literal 1000 (-1)) (TestDashboardUI.load entry)
            = true)).
Proof.
  intros Hclaim.
  assert (HC : TestDashboardUI.expected_values !! "C"%string
               = Some (TestDashboardUI.mkExpected (PyFloat.literal 950 (-1)) "OVERLOAD"))
    by (vm_compute; reflexivity).
  destruct (Hclaim _ _ HC) as [Hover _].
  specialize (Hover eq_refl). vm_compute in Hover. discriminate.
Qed.

(** The other three entries agree with the threshold. *)
Example expected_values_other_entries :
  Forall
    (fun zone =>
       exists entry,
         TestDashboardUI.expected_values !! zone = Some entry
         /\ String.eqb (TestDashboardUI.status entry) "OVERLOAD"
            = PyFloat.ltb (PyFloat.literal 1000 (-1)) (TestDashboardUI.load entry))
    ["A"; "B"; "D"]%string.
Proof. repeat constructor; eexists; split; vm_compute; reflexivity. Qed.

(** * Further properties of the calculator *)

(** ** Signs of sums, quotients and rounded values *)

Section Signs.

Lemma shr_1_nonneg mrs : 0 <= shr_m mrs -> 0 <= shr_m (shr_1 mrs).
Proof.
  destruct mrs as [m r s]. destruct m as [|p|p]; cbn; intros H; try lia;
    destruct p; cbn; lia.
Qed.

Lemma iter_shr_1_nonneg p mrs :
  0 <= shr_m mrs -> 0 <= shr_m (SpecFloat.iter_pos shr_1 p mrs).
Proof.
  revert mrs. induction p as [p IH|p IH|]; intros mrs H; cbn [SpecFloat.iter_pos];
    auto using shr_1_nonneg.
Qed.

Lemma shr_fexp_nonneg m e l :
  0 <= m -> 0 <= shr_m (fst (shr_fexp PyFloat.prec PyFloat.emax m e l)).
Proof.
  intros H. unfold shr_fexp, shr.
  assert (Hm : shr_m (shr_record_of_loc m l) = m) by (destruct l as [|[]]; reflexivity).
  destruct (_ - e) as [|p|p]; cbn [fst]; try (rewrite Hm; exact H).
  apply iter_shr_1_nonneg. rewrite Hm. exact H.
Qed.

Lemma round_nearest_even_nonneg m l : 0 <= m -> 0 <= round_nearest_even m l.
Proof.
  intros H. unfold round_nearest_even.
  destruct l as [|[]]; try destruct (Z.even m); lia.
Qed.

Lemma binary_round_aux_sign_clear mx ex lx :
  0 <= mx -> sign_clear (binary_round_aux PyFloat.prec PyFloat.emax false mx ex lx).
Proof.
  intros H. unfold binary_round_aux.
  pose proof (shr_fexp_nonneg mx ex lx H) as H1.
  destruct (shr_fexp _ _ mx ex lx) as [mrs' e']. cbn [fst] in H1.
  pose proof (shr_fexp_nonneg _ e' loc_Exact
                (round_nearest_even_nonneg _ (loc_of_shr_record mrs') H1)) as H2.
  destruct (shr_fexp _ _ (round_nearest_even _ _) e' loc_Exact) as [mrs'' e''].
  cbn [fst] in H2.
  destruct (shr_m mrs'') as [|m|m]; [reflexivity| |lia].
  destruct (e'' <=? _); reflexivity.
Qed.

Lemma binary_round_sign_clear m e :
  sign_clear (binary_round PyFloat.prec PyFloat.emax false m e).
Proof.
  unfold binary_round. destruct (shl_align _ _ _) as [mz ez].
  apply binary_round_aux_sign_clear. lia.
Qed.

Lemma sign_clear_leb x : sign_clear x -> PyFloat.leb PyFloat.zero x = true.
Proof. destruct x as [s|s| |s m e]; cbn; intros H; subst; tauto || reflexivity. Qed.

Lemma sign_clear_not_negative x : sign_clear x -> not_negative x.
Proof. destruct x as [s|s| |s m e]; cbn; intros H; subst; tauto || reflexivity. Qed.

Lemma add_sign_clear acc x :
  sign_clear acc -> PyFloat.leb PyFloat.zero x = true ->
  sign_clear (PyFloat.add acc x).
Proof.
  destruct acc as [sa|sa| |sa ma ea], x as [sx|sx| |sx mx ex];
    cbn; intros Ha Hx; subst; try discriminate; try tauto;
    try (destruct sx; try discriminate; reflexivity).
  destruct sx; [discriminate|].
  unfold PyFloat.add, SFadd. cbv zeta. cbn [cond_Zopp Z.add binary_normalize].
  apply binary_round_sign_clear.
Qed.

Lemma add_not_negative acc x :
  (acc = S754_nan \/ sign_clear acc) -> not_negative x ->
  PyFloat.add acc x = S754_nan \/ sign_clear (PyFloat.add acc x).
Proof.
  intros [->|Ha] Hx; [left; reflexivity|].
  destruct x as [sx|sx| |sx mx ex]; try (left; destruct acc; reflexivity).
  - right. apply add_sign_clear; [assumption|]. destruct sx; reflexivity.
  - right. apply add_sign_clear; [assumption|].
    destruct sx; [discriminate Hx|reflexivity].
  - right. apply add_sign_clear; [assumption|].
    destruct sx; [discriminate Hx|reflexivity].
Qed.

Lemma div_not_negative x y :
  (x = S754_nan \/ sign_clear x) -> sign_clear y ->
  not_negative (PyFloat.div x y).
Proof.
  intros [->|Hx] Hy; [reflexivity|].
  destruct x as [sx|sx| |sx mx ex], y as [sy|sy| |sy my ey];
    cbn in Hx, Hy; subst; try tauto; try reflexivity.
  apply sign_clear_not_negative.
  unfold PyFloat.div, SFdiv, SFdiv_core_binary. cbv zeta.
  destruct (Z.div_eucl _ _) as [q r] eqn:Hqr.
  apply binary_round_aux_sign_clear.
  assert (Hq : q = fst (Z.div_eucl
     match (ex - ey - Z.min (fexp PyFloat.prec PyFloat.emax
              (Zdigits2 (Z.pos mx) + ex - (Zdigits2 (Z.pos my) + ey))) (ex - ey)) with
     | 0 => Z.pos mx
     | Z.pos _ => Z.shiftl (Z.pos mx)
          (ex - ey - Z.min (fexp PyFloat.prec PyFloat.emax
              (Zdigits2 (Z.pos mx) + ex - (Zdigits2 (Z.pos my) + ey))) (ex - ey))
     | Z.neg _ => 0
     end (Z.pos my))) by (rewrite Hqr; reflexivity).
  rewrite Hq. change (fst (Z.div_eucl ?a ?b)) with (a / b).
  apply Z.div_pos; [|lia].
  destruct (ex - ey - _) as [|p|p]; try lia.
  apply Z.shiftl_nonneg. lia.
Qed.

Lemma strtod_sign_clear digits exp10 : sign_clear (PyFloat.strtod false digits exp10).
Proof.
  unfold PyFloat.strtod. destruct digits as [|d|d]; try reflexivity.
  destruct (0 <=? exp10).
  - destruct (Z.pos d * 10 ^ exp10) as [|p|p] eqn:Hp; cbn [binary_normalize];
      [reflexivity|apply binary_round_sign_clear|].
    pose proof (Z.pow_nonneg 10 exp10 ltac:(lia)). lia.
  - unfold PyFloat.div, SFdiv, SFdiv_core_binary. cbv zeta.
    destruct (Z.div_eucl _ _) as [q r] eqn:Hqr.
    apply binary_round_aux_sign_clear.
    pose proof (Z_div_mod_full) as _.
    match type of Hqr with Z.div_eucl ?a ?b = _ =>
      assert (Hq : q = a / b) by (unfold Z.div; rewrite Hqr; reflexivity);
      assert (Ha : 0 <= a)
    end.
    { destruct (0 - 0 - _) as [|p|p]; try lia. apply Z.shiftl_nonneg. lia. }
    rewrite Hq. apply Z.div_pos; [exact Ha|lia].
Qed.

Lemma round_not_negative x ndigits :
  not_negative x -> not_negative (PyFloat.round x ndigits).
Proof.
  destruct x as [s|s| |s m e]; try (intros H; exact H).
  destruct s; [discriminate|]. intros _.
  apply sign_clear_not_negative. unfold PyFloat.round. cbv zeta.
  apply strtod_sign_clear.
Qed.

Lemma py_sum_sign_clear xs acc :
  sign_clear acc -> Forall (fun x => PyFloat.leb PyFloat.zero x = true) xs ->
  sign_clear (fold_left PyFloat.add xs acc).
Proof.
  revert acc. induction xs as [|x xs IH]; intros acc Hacc Hall; [exact Hacc|].
  apply Forall_cons in Hall as [Hx Hxs]. cbn [fold_left].
  apply IH; [apply add_sign_clear|]; assumption.
Qed.

Lemma py_sum_not_negative xs acc :
  (acc = S754_nan \/ sign_clear acc) -> Forall not_negative xs ->
  fold_left PyFloat.add xs acc = S754_nan
  \/ sign_clear (fold_left PyFloat.add xs acc).
Proof.
  revert acc. induction xs as [|x xs IH]; intros acc Hacc Hall; [exact Hacc|].
  apply Forall_cons in Hall as [Hx Hxs]. cbn [fold_left].
  apply IH; [apply add_not_negative|]; assumption.
Qed.

(** X1: where [sum] adds from left to right (the plain summation, up to
    CPython 3.11), the sum keeps the invariant of the constructor.  If
    no load is below zero, the total load is not below zero; if moreover
    no load is NaN (every load is [>= 0]), the total is [>= 0] as well. *)
Theorem calculate_total_load_not_negative (zones : list ZoneLoad) :
  (Forall (fun z => PyFloat.ltb (LoadBalancer.load z) PyFloat.zero = false) zones ->
   PyFloat.ltb (calculate_total_load PlainSum zones) PyFloat.zero = false)
  /\ (Forall (fun z => PyFloat.leb PyFloat.zero (LoadBalancer.load z) = true) zones ->
      PyFloat.leb PyFloat.zero (calculate_total_load PlainSum zones) = true).
Proof.
  unfold calculate_total_load, py_sum. split; intros Hall.
  - destruct (py_sum_not_negative (List.map LoadBalancer.load zones) PyFloat.zero)
      as [->|H]; [right; reflexivity| |reflexivity|].
    + apply Forall_map. exact Hall.
    + apply sign_clear_not_negative. exact H.
  - apply sign_clear_leb, py_sum_sign_clear; [reflexivity|].
    apply Forall_map. exact Hall.
Qed.

Lemma calculate_total_load_not_negative_witness :
  PyFloat.ltb (calculate_total_load PlainSum sample_zones) PyFloat.zero = false
  /\ PyFloat.leb PyFloat.zero (calculate_total_load PlainSum sample_zones) = true.
Proof.
  split.
  - apply (proj1 (calculate_total_load_not_negative sample_zones)).
    repeat constructor.
  - apply (proj2 (calculate_total_load_not_negative sample_zones)).
    repeat constructor.
Defined.

(** X2: where [sum] adds from left to right (the plain summation, up to
    CPython 3.11), for a non-empty sequence of zones none of whose loads
    is below zero, the ideal load is not below zero either. *)
Theorem calculate_ideal_load_not_negative (zones : list ZoneLoad) :
  zones <> [] ->
  Forall (fun z => PyFloat.ltb (LoadBalancer.load z) PyFloat.zero = false) zones ->
  exists ideal,
    calculate_ideal_load PlainSum zones = Ok ideal
    /\ PyFloat.ltb ideal PyFloat.zero = false.
Proof.
  intros Hne Hall. rewrite (calculate_ideal_load_nonempty (alg := PlainSum) zones Hne).
  eexists. split; [reflexivity|].
  apply round_not_negative. apply div_not_negative.
  - unfold calculate_total_load, py_sum. apply py_sum_not_negative.
    + right. reflexivity.
    + apply Forall_map. exact Hall.
  - destruct zones as [|z zones]; [congruence|].
    cbn [List.length]. rewrite Nat2Z.inj_succ.
    unfold PyFloat.of_Z.
    destruct (Z.succ (Z.of_nat (List.length zones))) as [|p|p] eqn:Hp; try lia.
    cbn [binary_normalize]. apply binary_round_sign_clear.
Qed.

Lemma calculate_ideal_load_not_negative_witness :
  exists ideal,
    calculate_ideal_load PlainSum sample_zones = Ok ideal
    /\ PyFloat.ltb ideal PyFloat.zero = false.
Proof.
  apply (calculate_ideal_load_not_negative sample_zones).
  - discriminate.
  - repeat constructor.
Defined.

End Signs.

(** ** Overload detection on composed sequences *)

(** X3: overload detection works zone by zone: the overloads of a
    concatenation are the overloads of the parts, detecting twice
    changes nothing, and reordering the zones reorders the overloads. *)
Theorem detect_overloads_compositional (zones zones' : list ZoneLoad) :
  detect_overloads (zones ++ zones')
  = detect_overloads zones ++ detect_overloads zones'
  /\ detect_overloads (detect_overloads zones) = detect_overloads zones
  /\ (zones ≡ₚ zones' -> detect_overloads zones ≡ₚ detect_overloads zones').
Proof.
  rewrite !detect_overloads_filter. split; [apply filter_app|]. split.
  - rewrite list_filter_filter. apply list_filter_iff. tauto.
  - intros Hperm. rewrite Hperm. reflexivity.
Qed.

Lemma detect_overloads_compositional_witness :
  detect_overloads boundary_zones ≡ₚ detect_overloads (List.rev boundary_zones).
Proof.
  apply (proj2 (proj2 (detect_overloads_compositional
                         boundary_zones (List.rev boundary_zones)))).
  apply Permutation_rev.
Defined.

(** X4: no zone is reported exactly when no load exceeds 100.0; and the
    number of reported zones never exceeds the number of zones.  A load
    that is not a number is never reported. *)
Theorem detect_overloads_none_iff (zones : list ZoneLoad) :
  (detect_overloads zones = []
   <-> Forall (fun z => PyFloat.ltb (PyFloat.literal 1000 (-1))
                          (LoadBalancer.load z) = false) zones)
  /\ (List.length (detect_overloads zones) <= List.length zones)%nat
  /\ (forall z, LoadBalancer.load z = S754_nan -> z ∉ detect_overloads zones).
Proof.
  split; [|split].
  - induction zones as [|z zones IH]; cbn [detect_overloads].
    + split; [constructor|reflexivity].
    + change MAX_LOAD_PER_ZONE with (PyFloat.literal 1000 (-1)).
      destruct (PyFloat.ltb _ (LoadBalancer.load z)) eqn:Hz.
      * split; [discriminate|]. intros Hall.
        apply Forall_cons in Hall as [Hz' _]. congruence.
      * rewrite IH. split; [intros; constructor; assumption|].
        intros Hall. apply Forall_cons in Hall as [_ Hall]. exact Hall.
  - rewrite detect_overloads_filter. apply length_filter.
  - intros z Hnan Hz. rewrite detect_overloads_filter in Hz.
    apply list_elem_of_filter in Hz as [Hz _]. unfold overloaded in Hz.
    rewrite Hnan in Hz. discriminate.
Qed.

Lemma detect_overloads_none_iff_witness :
  detect_overloads within_tolerance_zones = []
  /\ mkZoneLoad "N" S754_nan ∉ detect_overloads [mkZoneLoad "N" S754_nan].
Proof.
  split.
  - apply (proj1 (detect_overloads_none_iff within_tolerance_zones)).
    repeat constructor.
  - apply (proj2 (proj2 (detect_overloads_none_iff [mkZoneLoad "N" S754_nan]))).
    reflexivity.
Defined.

(** ** The report *)

Lemma fold_left_snoc_map {A B} (f : A -> B) (l : list A) (acc : list B) :
  fold_left (fun lines a => lines ++ [f a]) l acc = acc ++ List.map f l.
Proof.
  revert acc. induction l as [|a l IH]; intros acc; cbn [fold_left List.map].
  - symmetry. apply app_nil_r.
  - rewrite IH, <- app_assoc. reflexivity.
Qed.

Lemma fold_left_adjustment_lines (adjustments : list (string * string))
    (acc : list string) :
  fold_left
    (fun ls '(zone, action) =>
       ls ++ [String.append "   - "
                (String.append zone (String.append ": " action))])
    adjustments acc
  = acc ++ List.map adjustment_line adjustments.
Proof.
  revert acc.
  induction adjustments as [|[zone action] adjustments IH]; intros acc;
    cbn [fold_left List.map].
  - symmetry. apply app_nil_r.
  - rewrite IH, <- app_assoc. reflexivity.
Qed.

(** X5: the report is assembled from the four operations and from
    nothing else: it is the header, one line per zone in input order,
    the total and the ideal load, the section of the overloaded zones
    (or the line saying there are none) and the section of the
    adjustments of [recommend_redistribution] (or the line saying the
    distribution is optimal), joined by newlines; it fails when one of
    the operations fails. *)
Theorem generate_report_sections (alg : sum_algorithm) (zones : list ZoneLoad) :
  generate_report alg zones
  = bind (calculate_ideal_load alg zones) (fun ideal =>
    bind (recommend_redistribution alg zones) (fun adjustments =>
    Ok (join nl (report_lines_of alg zones ideal adjustments)))).
Proof.
  unfold generate_report.
  destruct (calculate_ideal_load alg zones) as [ideal|e]; [|reflexivity].
  rewrite !bind_Ok.
  destruct (recommend_redistribution alg zones) as [adjustments|e]; [|reflexivity].
  rewrite !bind_Ok. do 2 f_equal. unfold report_lines_of.
  rewrite fold_left_snoc_map.
  assert (Hadj : forall lines : list string,
            match adjustments with
            | [] => lines ++ [String.append nl
                                (String.append "Load distribution is optimal. "
                                   CHECK_MARK)]
            | _ :: _ =>
                fold_left
                  (fun ls '(zone, action) =>
                     ls ++ [String.append "   - "
                              (String.append zone (String.append ": " action))])
                  adjustments
                  (lines ++ [String.append nl "Recommended Adjustments:"])
            end = lines ++ adjustment_section adjustments).
  { intros lines. unfold adjustment_section.
    destruct adjustments as [|a adjustments]; [reflexivity|].
    rewrite fold_left_adjustment_lines, <- app_assoc. reflexivity. }
  rewrite Hadj. clear Hadj.
  unfold overload_section.
  destruct (detect_overloads zones) as [|o overloads].
  - cbn [app]. rewrite <- !app_assoc. reflexivity.
  - rewrite (fold_left_snoc_map overload_line).
    cbn [app]. rewrite <- !app_assoc. reflexivity.
Qed.

(** X6: the only exception of the three operations that divide is the
    [ZeroDivisionError] of the empty sequence: each of them raises
    exactly when the sequence is empty, and returns a value for every
    other sequence, whatever the loads. *)
Theorem raises_exactly_on_empty (alg : sum_algorithm) (zones : list ZoneLoad) :
  (forall e, calculate_ideal_load alg zones = Raise e
             <-> zones = [] /\ e = ZeroDivisionError)
  /\ (forall e, recommend_redistribution alg zones = Raise e
                <-> zones = [] /\ e = ZeroDivisionError)
  /\ (forall e, generate_report alg zones = Raise e
                <-> zones = [] /\ e = ZeroDivisionError).
Proof.
  destruct zones as [|z zones].
  - assert (H1 : calculate_ideal_load alg [] = Raise ZeroDivisionError)
      by (destruct alg; reflexivity).
    assert (H2 : recommend_redistribution alg [] = Raise ZeroDivisionError)
      by (destruct alg; reflexivity).
    assert (H3 : generate_report alg [] = Raise ZeroDivisionError)
      by (destruct alg; reflexivity).
    rewrite H1, H2, H3.
    split; [|split]; intros e;
      (split; [intros H; split; congruence | intros [_ ->]; reflexivity]).
  - assert (Hne : z :: zones <> []) by discriminate.
    pose proof (calculate_ideal_load_nonempty (alg := alg) _ Hne) as Hideal.
    destruct (recommend_redistribution_nonempty (alg := alg) _ Hne)
      as (ideal & Hideal' & Hrec).
    split; [|split]; intros e; (split; [|intros [? _]; discriminate]).
    + rewrite Hideal. discriminate.
    + rewrite Hrec. discriminate.
    + unfold generate_report. rewrite Hideal', bind_Ok. cbv zeta.
      rewrite Hrec, bind_Ok. discriminate.
Qed.

Lemma raises_exactly_on_empty_witness :
  generate_report CompensatedSum [] = Raise ZeroDivisionError.
Proof.
  apply (proj2 (proj2 (raises_exactly_on_empty CompensatedSum [])) ZeroDivisionError).
  split; reflexivity.
Defined.

(** ** Counting and shape of the adjustments *)

Lemma zone_directive_cases ideal z :
  (within_tolerance ideal z = true /\ zone_directive ideal z = [])
  \/ (within_tolerance ideal z = false
      /\ exists verb,
           (verb = "Reduce load by "%string \/ verb = "Increase load by "%string)
           /\ zone_directive ideal z
              = [(name z,
                  String.append verb
                    (String.append (PyFloat.repr (directive_amount ideal z)) " kW"))]).
Proof.
  unfold within_tolerance, zone_directive, redistribution_step, directive_amount.
  cbv zeta.
  destruct (PyFloat.ltb (PyFloat.abs _) _); [left; split; reflexivity|].
  right. split; [reflexivity|].
  destruct (PyFloat.ltb PyFloat.zero _); eexists; (split; [|reflexivity]); tauto.
Qed.

Lemma directive_amount_abs ideal z :
  within_tolerance ideal z = false ->
  directive_amount ideal z
  = PyFloat.abs (PyFloat.round (PyFloat.sub (LoadBalancer.load z) ideal) 2).
Proof.
  unfold within_tolerance, directive_amount. cbv zeta.
  destruct (PyFloat.round _ 2) as [s|s| |s m e]; try destruct s; cbn;
    try reflexivity; discriminate.
Qed.

Lemma abs_not_negative x : PyFloat.ltb (PyFloat.abs x) PyFloat.zero = false.
Proof. destruct x as [s|s| |s m e]; reflexivity. Qed.

(** X7: for a non-empty sequence there is one adjustment per zone
    outside the tolerance band and none for the others: the number of
    adjustments is the number of zones with [|diff| >= 1.0] (or an
    undefined [diff]), so it never exceeds the number of zones, and the
    list is empty exactly when every zone is within tolerance. *)
Theorem recommend_redistribution_count (alg : sum_algorithm) (zones : list ZoneLoad) :
  zones <> [] ->
  exists ideal adjustments,
    calculate_ideal_load alg zones = Ok ideal
    /\ recommend_redistribution alg zones = Ok adjustments
    /\ List.length adjustments
       = List.length (List.filter (fun z => negb (within_tolerance ideal z)) zones)
    /\ (List.length adjustments <= List.length zones)%nat
    /\ (adjustments = []
        <-> Forall (fun z => within_tolerance ideal z = true) zones).
Proof.
  intros Hne.
  destruct (recommend_redistribution_nonempty (alg := alg) zones Hne)
    as (ideal & Hideal & Hrec).
  exists ideal, (concat (List.map (zone_directive ideal) zones)).
  split; [exact Hideal|]. split; [exact Hrec|]. clear Hne Hideal Hrec.
  assert (Hlen :
    List.length (concat (List.map (zone_directive ideal) zones))
    = List.length (List.filter (fun z => negb (within_tolerance ideal z)) zones)).
  { induction zones as [|z zones IH]; [reflexivity|].
    cbn [List.map concat List.filter]. rewrite length_app, IH.
    destruct (zone_directive_cases ideal z) as [[-> ->]|[-> (verb & _ & ->)]];
      reflexivity. }
  split; [exact Hlen|]. split.
  - rewrite Hlen. apply List.filter_length_le.
  - clear Hlen.
    induction zones as [|z zones IH]; [split; [constructor|reflexivity]|].
    cbn [List.map concat].
    destruct (zone_directive_cases ideal z) as [[Hz ->]|[Hz (verb & _ & ->)]];
      cbn [app].
    + rewrite IH.
      split; [intros; constructor; assumption|].
      intros Hall. apply Forall_cons in Hall as [_ Hall]. exact Hall.
    + split; [discriminate|]. intros Hall.
      apply Forall_cons in Hall as [Hz' _]. congruence.
Qed.

Lemma recommend_redistribution_count_witness :
  exists ideal adjustments,
    calculate_ideal_load CompensatedSum sample_zones = Ok ideal
    /\ recommend_redistribution CompensatedSum sample_zones = Ok adjustments
    /\ List.length adjustments
       = List.length
           (List.filter (fun z => negb (within_tolerance ideal z)) sample_zones)
    /\ (List.length adjustments <= List.length sample_zones)%nat
    /\ (adjustments = []
        <-> Forall (fun z => within_tolerance ideal z = true) sample_zones).
Proof.
  apply (recommend_redistribution_count CompensatedSum sample_zones). discriminate.
Defined.

(** X8: the amount printed in a directive is [|diff|], the absolute
    value of the rounded difference of that zone to the ideal load: it
    is never negative and never below 1.0 (it is at least 1.0, or
    undefined when the difference is).  Every directive belongs to a
    zone of the input and starts with one of the two verbs. *)
Theorem directive_amount_at_least_one (alg : sum_algorithm) (zones : list ZoneLoad) :
  zones <> [] ->
  exists ideal adjustments,
    calculate_ideal_load alg zones = Ok ideal
    /\ recommend_redistribution alg zones = Ok adjustments
    /\ Forall
         (fun adjustment =>
            exists z verb,
              z ∈ zones
              /\ fst adjustment = name z
              /\ (verb = "Reduce load by "%string \/ verb = "Increase load by "%string)
              /\ let amount :=
                   PyFloat.abs
                     (PyFloat.round (PyFloat.sub (LoadBalancer.load z) ideal) 2) in
                 snd adjustment
                 = String.append verb (String.append (PyFloat.repr amount) " kW")
                 /\ PyFloat.ltb amount PyFloat.zero = false
                 /\ PyFloat.ltb amount (PyFloat.literal 10 (-1)) = false)
         adjustments.
Proof.
  intros Hne.
  destruct (recommend_redistribution_nonempty (alg := alg) zones Hne)
    as (ideal & Hideal & Hrec).
  exists ideal, (concat (List.map (zone_directive ideal) zones)).
  split; [exact Hideal|]. split; [exact Hrec|]. clear Hne Hideal Hrec.
  induction zones as [|z zones IH]; [constructor|].
  cbn [List.map concat]. apply Forall_app. split.
  - destruct (zone_directive_cases ideal z) as [[_ ->]|[Hz (verb & Hverb & ->)]];
      [constructor|].
    constructor; [|constructor].
    exists z, verb. split; [left|]. split; [reflexivity|]. split; [exact Hverb|].
    cbv zeta. rewrite <- (directive_amount_abs ideal z Hz).
    split; [reflexivity|].
    rewrite (directive_amount_abs ideal z Hz).
    split; [apply abs_not_negative|exact Hz].
  - eapply Forall_impl; [exact IH|].
    intros adjustment (z' & verb & Hin & Hrest).
    exists z', verb. split; [right; exact Hin|exact Hrest].
Qed.

Lemma directive_amount_at_least_one_witness :
  exists ideal adjustments,
    calculate_ideal_load CompensatedSum tolerance_edge_zones = Ok ideal
    /\ recommend_redistribution CompensatedSum tolerance_edge_zones = Ok adjustments
    /\ Forall
         (fun adjustment =>
            exists z verb,
              z ∈ tolerance_edge_zones
              /\ fst adjustment = name z
              /\ (verb = "Reduce load by "%string \/ verb = "Increase load by "%string)
              /\ let amount :=
                   PyFloat.abs
                     (PyFloat.round (PyFloat.sub (LoadBalancer.load z) ideal) 2) in
                 snd adjustment
                 = String.append verb (String.append (PyFloat.repr amount) " kW")
                 /\ PyFloat.ltb amount PyFloat.zero = false
                 /\ PyFloat.ltb amount (PyFloat.literal 10 (-1)) = false)
         adjustments.
Proof.
  apply (directive_amount_at_least_one CompensatedSum tolerance_edge_zones).
  discriminate.
Defined.

(** ** Zone names *)

Lemma zone_directive_same_load ideal z z' :
  LoadBalancer.load z = LoadBalancer.load z' ->
  List.map snd (zone_directive ideal z) = List.map snd (zone_directive ideal z').
Proof.
  intros Hload. unfold zone_directive, redistribution_step. cbv zeta.
  rewrite Hload.
  destruct (PyFloat.ltb (PyFloat.abs _) _); [reflexivity|].
  destruct (PyFloat.ltb PyFloat.zero _); reflexivity.
Qed.

(** X9: names play no part in the computation.  Two sequences with the
    same loads in the same order have the same total and ideal load,
    overloads with the same loads, and the same directives in the same
    order (or both fail in the same way); only the names attached to
    them differ. *)
Theorem results_depend_on_loads_only
    (alg : sum_algorithm) (zones zones' : list ZoneLoad) :
  List.map LoadBalancer.load zones = List.map LoadBalancer.load zones' ->
  calculate_total_load alg zones = calculate_total_load alg zones'
  /\ calculate_ideal_load alg zones = calculate_ideal_load alg zones'
  /\ List.map LoadBalancer.load (detect_overloads zones)
     = List.map LoadBalancer.load (detect_overloads zones')
  /\ match recommend_redistribution alg zones, recommend_redistribution alg zones' with
     | Ok adjustments, Ok adjustments' =>
         List.map snd adjustments = List.map snd adjustments'
     | Raise e, Raise e' => e = e'
     | _, _ => False
     end.
Proof.
  intros Hloads.
  assert (Htotal : calculate_total_load alg zones = calculate_total_load alg zones')
    by (unfold calculate_total_load; rewrite Hloads; reflexivity).
  assert (Hlen : List.length zones = List.length zones')
    by (rewrite <- (List.length_map LoadBalancer.load zones), Hloads;
        apply List.length_map).
  assert (Hideal : calculate_ideal_load alg zones = calculate_ideal_load alg zones')
    by (unfold calculate_ideal_load; rewrite Htotal, Hlen; reflexivity).
  split; [exact Htotal|]. split; [exact Hideal|]. split.
  - clear Htotal Hlen Hideal. revert zones' Hloads.
    induction zones as [|z zones IH]; intros [|z' zones'] Hloads;
      try discriminate Hloads; [reflexivity|].
    cbn [List.map] in Hloads. injection Hloads as Hz Hrest.
    cbn [detect_overloads]. rewrite Hz.
    destruct (PyFloat.ltb _ _); cbn [List.map];
      [rewrite Hz; f_equal|]; apply IH; exact Hrest.
  - unfold recommend_redistribution. rewrite <- Hideal.
    destruct (calculate_ideal_load alg zones) as [ideal|e]; [|reflexivity].
    rewrite !bind_Ok. cbv zeta. rewrite !fold_redistribution_step. cbn [app].
    clear Htotal Hlen Hideal. revert zones' Hloads.
    induction zones as [|z zones IH]; intros [|z' zones'] Hloads;
      try discriminate Hloads; [reflexivity|].
    cbn [List.map] in Hloads. injection Hloads as Hz Hrest.
    cbn [List.map concat]. rewrite !List.map_app.
    rewrite (zone_directive_same_load ideal z z' Hz). f_equal.
    apply IH. exact Hrest.
Qed.

Lemma results_depend_on_loads_only_witness :
  calculate_ideal_load CompensatedSum sample_zones
  = calculate_ideal_load CompensatedSum
      (List.map (fun z => mkZoneLoad "Zone" (LoadBalancer.load z)) sample_zones).
Proof.
  apply (results_depend_on_loads_only CompensatedSum sample_zones
           (List.map (fun z => mkZoneLoad "Zone" (LoadBalancer.load z)) sample_zones)).
  reflexivity.
Defined.

(** * Properties of the dashboard test *)

Section DashboardTest.

Import DashboardPage TestDashboardZones.

Context {element error : Type}.
Implicit Types driver : browser element error.

(** The loop of the test visits the entries of [expected_values]. *)
Lemma expected_items_of_expected_values :
  list_to_map expected_items = TestDashboardUI.expected_values.
Proof. reflexivity. Qed.

(** What the page has to show for one entry. *)
Lemma check_zone_passes driver zone expected :
  check_zone driver zone expected = inl tt
  <-> exists load status_text status_class,
        get_zone_load driver zone = inl load
        /\ get_zone_status driver zone = inl (status_text, Some status_class)
        /\ SFeqb load (TestDashboardUI.load expected) = true
        /\ contains (TestDashboardUI.status expected) status_text = true
        /\ contains
             (if String.eqb (TestDashboardUI.status expected) "OVERLOAD"
              then "overload" else "ok")%string
             status_class = true.
Proof.
  unfold check_zone.
  destruct (get_zone_load driver zone) as [load|e].
  2: { split; [discriminate|]. intros (? & ? & ? & H & _). discriminate. }
  destruct (get_zone_status driver zone) as [[status_text status_class]|e].
  2: { split; [discriminate|]. intros (? & ? & ? & _ & H & _). discriminate. }
  destruct (SFeqb load _) eqn:Hload; cbn [negb].
  2: { split; [discriminate|].
       intros (? & ? & ? & H & _ & H' & _). injection H as <-. congruence. }
  destruct (contains (TestDashboardUI.status expected) status_text) eqn:Htext;
    cbn [negb].
  2: { split; [discriminate|].
       intros (? & ? & ? & _ & H & _ & H' & _). injection H as -> ->. congruence. }
  unfold assert_class.
  destruct (String.eqb _ "OVERLOAD"), status_class as [status_class|];
    try (split; [discriminate|];
         intros (? & ? & ? & _ & H & _); discriminate);
    (destruct (contains _ status_class) eqn:Hclass;
     [ split; [intros _; eauto 10|reflexivity]
     | split; [discriminate|];
       intros (? & ? & ? & _ & H & _ & _ & H'); injection H as -> ->; congruence ]).
Qed.

Lemma check_zones_pass driver items :
  check_zones driver items = inl tt
  <-> Forall (fun item => check_zone driver (fst item) (snd item) = inl tt) items.
Proof.
  induction items as [|[zone expected] items IH]; cbn [check_zones].
  - split; [constructor|reflexivity].
  - destruct (check_zone driver zone expected) as [[]|e] eqn:Hzone.
    + rewrite IH. split; [intros; constructor; assumption|].
      intros Hall. apply Forall_cons in Hall as [_ Hall]. exact Hall.
    + split; [discriminate|]. intros Hall.
      apply Forall_cons in Hall as [Hzone' _]. cbn [fst snd] in Hzone'.
      congruence.
Qed.

(** X10: the test passes exactly when, for each of the four expected
    entries, both page reads succeed, the load read from the page equals
    the expected load, the status text contains the expected status, and
    the class of the status element contains ["overload"] for an
    expected ["OVERLOAD"] and ["ok"] otherwise. *)
Theorem test_dashboard_zones_passes_iff driver :
  test_dashboard_zones driver = inl tt
  <-> Forall
        (fun item =>
           exists load status_text status_class,
             get_zone_load driver (fst item) = inl load
             /\ get_zone_status driver (fst item) = inl (status_text, Some status_class)
             /\ SFeqb load (TestDashboardUI.load (snd item)) = true
             /\ contains (TestDashboardUI.status (snd item)) status_text = true
             /\ contains
                  (if String.eqb (TestDashboardUI.status (snd item)) "OVERLOAD"
                   then "overload" else "ok")%string
                  status_class = true)
        expected_items.
Proof.
  unfold test_dashboard_zones. rewrite check_zones_pass.
  apply Forall_iff. intros [zone expected]. apply check_zone_passes.
Qed.

(** X11: the test cannot pass on a dashboard that follows the threshold
    of the calculator: if the status shown for zone C (95.0 kW, below
    100.0) does not contain ["OVERLOAD"], the test fails. *)
Theorem test_dashboard_zones_needs_zone_C_overloaded
    driver (status_text : string) (status_class : option string) :
  get_zone_status driver "C" = inl (status_text, status_class) ->
  contains "OVERLOAD" status_text = false ->
  test_dashboard_zones driver <> inl tt.
Proof.
  intros Hstatus Htext Hpass.
  unfold test_dashboard_zones in Hpass. apply check_zones_pass in Hpass.
  unfold expected_items in Hpass.
  apply Forall_cons in Hpass as [_ Hpass]. apply Forall_cons in Hpass as [_ Hpass].
  apply Forall_cons in Hpass as [HC _]. cbn [fst snd] in HC.
  apply check_zone_passes in HC.
  destruct HC as (load & text' & class' & _ & Hstatus' & _ & Htext' & _).
  rewrite Hstatus in Hstatus'. injection Hstatus' as -> _.
  cbn in Htext'. congruence.
Qed.

End DashboardTest.

Lemma test_dashboard_zones_passes_iff_witness :
  TestDashboardZones.test_dashboard_zones
    (TestDashboardZones.table_browser TestDashboardZones.fixture_dashboard
       TestDashboardZones.parse_sample)
  = inl tt.
Proof.
  apply (proj2 (test_dashboard_zones_passes_iff
                  (TestDashboardZones.table_browser
                     TestDashboardZones.fixture_dashboard
                     TestDashboardZones.parse_sample))).
  repeat constructor; eexists _, _, _; repeat split; vm_compute; reflexivity.
Defined.

Lemma test_dashboard_zones_needs_zone_C_overloaded_witness :
  TestDashboardZones.test_dashboard_zones
    (TestDashboardZones.table_browser TestDashboardZones.threshold_dashboard
       TestDashboardZones.parse_sample)
  <> inl tt.
Proof.
  apply (test_dashboard_zones_needs_zone_C_overloaded
           (TestDashboardZones.table_browser
              TestDashboardZones.threshold_dashboard
              TestDashboardZones.parse_sample)
           "OK" (Some "status ok"%string)).
  - vm_compute. reflexivity.
  - vm_compute. reflexivity.
Defined.

(** On the threshold-following dashboard the first failure is the status
    text of zone C. *)
Example test_dashboard_zones_on_threshold_dashboard :
  TestDashboardZones.test_dashboard_zones
    (TestDashboardZones.table_browser TestDashboardZones.threshold_dashboard
       TestDashboardZones.parse_sample)
  = inr (DashboardPage.AssertionError (Some "C status text mismatch"%string)).
Proof. vm_compute. reflexivity. Qed.
